(** * StakeWidget: staking position metrics and action orchestration

    A shallow embedding of [packages/frontend/src/pages/Stake/StakeWidget.tsx].

    - JavaScript values that may be [undefined] are [option]s.
    - An ethers [BigNumber] is an arbitrary-precision signed integer: [Z].
      Its [div] truncates toward zero ([Z.quot]) and throws on a zero divisor.
    - A JavaScript [number] is a finite rational, [NaN] or an infinity.
    - A memoised value ([useMemo], [useAsyncMemo]) is the function of its
      inputs that the callback computes once its reads have settled; a
      contract handle carries the outcome of each of its views.
    - An [async] action is a computation over the component state and the
      chronological list of requests made to the external collaborators;
      a thrown exception keeps everything that happened before it.  *)

From Stdlib Require Import ZArith QArith Qround String DecimalString List Bool Lia.
Import ListNotations.

Local Open Scope string_scope.
Local Open Scope Z_scope.

(* ===================================================================== *)
(** ** JavaScript values *)
(* ===================================================================== *)

Module Js.

(** [try { ... } catch] needs to know whether a call returned or threw. *)
Inductive result (A : Type) : Type :=
| Ok (a : A)
| Throw (message : string).
Arguments Ok {A} a.
Arguments Throw {A} message.

(** The [number] type.  The sign of zero is never observed by the widget. *)
Inductive number : Type :=
| Finite (q : Q)
| NaN
| Infinity
| NegInfinity.

Definition of_Z (z : Z) : number := Finite (inject_Z z).

(** [!!x] for a number: false for [0] and [NaN]. *)
Definition truthy (x : number) : bool :=
  match x with
  | Finite q => negb (Qeq_bool q 0)
  | NaN => false
  | Infinity | NegInfinity => true
  end.

(** [x === y] on numbers. *)
Definition strict_eq (x y : number) : bool :=
  match x, y with
  | Finite p, Finite q => Qeq_bool p q
  | Infinity, Infinity => true
  | NegInfinity, NegInfinity => true
  | _, _ => false
  end.

(** [x > y] on numbers; every comparison with [NaN] is false. *)
Definition gt (x y : number) : bool :=
  match x, y with
  | Finite p, Finite q => negb (Qle_bool p q)
  | Infinity, Finite _ | Infinity, NegInfinity => true
  | Finite _, NegInfinity => true
  | _, _ => false
  end.

(** [x | 0]: conversion to a signed 32-bit integer (truncate, wrap). *)
Definition to_int32 (x : number) : Z :=
  match x with
  | Finite q =>
      let t := if Qle_bool 0 q then Qfloor q else Qceiling q in
      let m := t mod 2 ^ 32 in
      if m <? 2 ^ 31 then m else m - 2 ^ 32
  | _ => 0
  end.

(** A value of the union type that the reward figures range over. *)
Inductive value : Type :=
| VUndefined
| VNumber (n : number)
| VBigNumber (z : Z)
| VString (s : string).

(** [!!v]: an object such as a BigNumber is always truthy, also when it
    holds zero. *)
Definition value_truthy (v : value) : bool :=
  match v with
  | VUndefined => false
  | VNumber n => truthy n
  | VBigNumber _ => true
  | VString s => negb (String.eqb s "")
  end.

End Js.
Import Js.

(* ===================================================================== *)
(** ** ethers BigNumber *)
(* ===================================================================== *)

Module BigNumber.

Definition MAX_SAFE : Z := 0x1fffffffffffff.

(** [BigNumber.from(value)] for a [number]: a fraction is an underflow
    fault, a magnitude beyond the safe integers an overflow fault. *)
Definition from_number (x : number) : result Z :=
  match x with
  | Finite q =>
      if negb (Qeq_bool q (inject_Z (Qfloor q))) then Throw "underflow"
      else if (MAX_SAFE <=? Qfloor q) || (Qfloor q <=? - MAX_SAFE)
           then Throw "overflow"
           else Ok (Qfloor q)
  | NaN => Throw "invalid BigNumber string"
  | Infinity | NegInfinity => Throw "overflow"
  end.

Definition mul (a b : Z) : Z := a * b.
Definition add (a b : Z) : Z := a + b.

(** [a.div(b)]: throws on zero, otherwise truncates toward zero. *)
Definition div (a b : Z) : result Z :=
  if b =? 0 then Throw "division-by-zero" else Ok (Z.quot a b).

Definition lt (a b : Z) : bool := a <? b.
Definition gt (a b : Z) : bool := b <? a.
Definition lte (a b : Z) : bool := a <=? b.

(** [Number(bn.toString())]: the decimal string of an integer read back
    as a double, that is the integer rounded to 53 significant bits,
    ties to even.  (Magnitudes of 2^1024 and more, which a uint256 never
    reaches, would read as an infinity.) *)
Definition round53 (n : Z) : Z :=
  if n <? 2 ^ 53 then n
  else
    let e := Z.log2 n - 52 in
    let q := n / 2 ^ e in
    let r := n mod 2 ^ e in
    let half := 2 ^ (e - 1) in
    let up := (half <? r) || ((r =? half) && Z.odd q) in
    (if up then q + 1 else q) * 2 ^ e.

Definition toNumber (z : Z) : number :=
  of_Z (Z.sgn z * round53 (Z.abs z)).

End BigNumber.

(* ===================================================================== *)
(** ** ActionGateKeeper: the synchronous checks (lines 138-157) *)
(* ===================================================================== *)

(** The wallet address is an opaque object. *)
Definition Address : Type := string.

(** [needsApproval], lines 138-143. *)
Definition needsApproval
  (address : option Address) (allowance parsedAmount : option Z)
  : option bool :=
  match address, allowance, parsedAmount with
  | Some _, Some allowance, Some parsedAmount =>
      Some (BigNumber.lt allowance parsedAmount)
  | _, _, _ => None
  end.

(** [if (needsApproval)]: only a [true] passes the test. *)
Definition holds (b : option bool) : bool :=
  match b with Some true => true | _ => false end.

(** [isStakeEnabled], lines 145-150. *)
Definition isStakeEnabled
  (parsedAmount lpBalance : option Z) (needsApproval : option bool) : bool :=
  match parsedAmount, lpBalance with
  | Some parsedAmount, Some lpBalance =>
      if holds needsApproval then false
      else if BigNumber.gt parsedAmount lpBalance then false
      else true
  | _, _ => false
  end.

(** [warning], lines 152-157. *)
Definition warning (parsedAmount lpBalance : option Z) : option string :=
  match parsedAmount, lpBalance with
  | Some parsedAmount, Some lpBalance =>
      if BigNumber.gt parsedAmount lpBalance
      then Some "Insufficient balance" else None
  | _, _ => None
  end.

(* ===================================================================== *)
(** ** Collaborators *)
(* ===================================================================== *)

(** Helpers that the widget imports from [src/utils] and conversions of
    the language that are not modelled digit by digit.  The widget is
    verified for every implementation of them. *)
Class Utils : Type := {
  (** [amountToBN(amount, decimals)]: a decimal string as an integer at
      the given precision; it throws on a malformed string. *)
  amountToBN : string -> Z -> result Z;
  (** [shiftBNDecimals(bn, shiftAmount)]. *)
  shiftBNDecimals : Z -> Z -> result Z;
  (** [x.toString()] on a number. *)
  numberToString : number -> string;
  (** [Number(s)] on a string. *)
  stringToNumber : string -> number
}.

Definition Signer : Type := string.

Record Token : Type := {
  symbol : string;
  decimals : Z;
  tokenSigner : option Signer;
  (** [token.allowance(spender)], a read for the signer's own address. *)
  tokenAllowance : string -> result Z
}.

Record Network : Type := {
  slug : string;
  networkId : string
}.

(** The staking-rewards contract handle with the outcome of its views. *)
Record Contract : Type := {
  contractAddress : string;
  periodFinish : result Z;
  rewardRate : result Z
}.

(** The callback of the allowance poll, lines 126-131: without a
    connected address, a contract or a signing token it answers undefined
    and reads nothing. *)
Definition allowance_callback
  (address : option Address) (stakingRewards : option Contract)
  (stakingToken : option Token) : result (option Z) :=
  match address, stakingRewards, stakingToken with
  | Some _, Some stakingRewards, Some stakingToken =>
      match tokenSigner stakingToken with
      | Some _ =>
          match tokenAllowance stakingToken (contractAddress stakingRewards)
          with
          | Ok allowance => Ok (Some allowance)
          | Throw m => Throw m
          end
      | None => Ok None
      end
  | _, _, _ => Ok None
  end.

Record Amm : Type := {
  calculateTotalAmountForLpToken : Z -> result Z
}.

Record HopBridge : Type := {
  getCanonicalToken : string -> result Token;
  getAmm : string -> result Amm
}.

Definition TOTAL_AMOUNTS_DECIMALS : Z := 18.

(* ===================================================================== *)
(** ** Sequencing *)
(* ===================================================================== *)

Class Monad (M : Type -> Type) : Type := {
  ret : forall {A}, A -> M A;
  bind : forall {A B}, M A -> (A -> M B) -> M B
}.

Notation "x <- c ;; k" := (bind c (fun x => k))
  (at level 61, c at next level, right associativity).
Notation "c ;;; k" := (bind c (fun _ => k))
  (at level 61, right associativity).

#[export] Instance result_monad : Monad result := {
  ret := fun A a => Ok a;
  bind := fun A B c k =>
    match c with Ok a => k a | Throw m => Throw m end
}.

(** [try { body } catch (err) { handler }] around a computation without
    side effects. *)
Definition try_or {A} (body : result A) (handler : string -> A) : A :=
  match body with Ok a => a | Throw m => handler m end.

(* ===================================================================== *)
(** ** LivePositionReader and YieldCalculator (lines 161-255) *)
(* ===================================================================== *)

(** [expireDate], lines 161-169: a failed read is logged and leaves the
    value undefined. *)
Definition expireDate (stakingRewards : option Contract) : option number :=
  match stakingRewards with
  | None => None
  | Some c =>
      try_or (timestamp <- periodFinish c ;;
              ret (Some (BigNumber.toNumber timestamp)))
             (fun _ => None)
  end.

(** [(Date.now() / 1000) | 0] for a clock reading in milliseconds. *)
Definition now_seconds (dateNow : Z) : number :=
  of_Z (to_int32 (Finite (Qmake dateNow 1000))).

(** [rewardsExpired], lines 171-177. *)
Definition rewardsExpired (dateNow : Z) (expireDate : option number)
  : option bool :=
  match expireDate with
  | None => None
  | Some e =>
      if negb (truthy e) then None
      else Some (gt (now_seconds dateNow) e)
  end.

(** [totalRewardsPerDay], lines 179-192. *)
Definition totalRewardsPerDay
  (stakingRewards : option Contract) (rewardsExpired : option bool)
  : option Z :=
  try_or
    (match stakingRewards, rewardsExpired with
     | Some c, Some expired =>
         if expired then ret (Some 0)
         else
           rewardRate <- rewardRate c ;;
           ret (Some (BigNumber.mul rewardRate 86400))
     | _, _ => ret None
     end)
    (fun _ => None).

(** [userRewardsPerDay], lines 194-217.  The expired branch returns the
    number [0], the catch clause the empty string. *)
Definition userRewardsPerDay
  (stakingRewards : option Contract) (stakeBalance totalStaked : option Z)
  (rewardsExpired : option bool) : value :=
  try_or
    (match stakingRewards, stakeBalance, totalStaked, rewardsExpired with
     | Some c, Some stakeBalance, Some totalStaked, Some expired =>
         if negb (BigNumber.gt stakeBalance 0) then ret VUndefined
         else if expired then ret (VNumber (of_Z 0))
         else
           rewardRate <- rewardRate c ;;
           let rewardRate := BigNumber.mul rewardRate 86400 in
           rewardRate <- BigNumber.div
                           (BigNumber.mul rewardRate stakeBalance)
                           totalStaked ;;
           ret (VBigNumber rewardRate)
     | _, _, _, _ => ret VUndefined
     end)
    (fun _ => VString "").

(** [apr], lines 220-255. *)
Definition apr `{U : Utils}
  (bridge : option HopBridge) (network : option Network)
  (totalStaked totalRewardsPerDay : option Z)
  (rewardTokenUsdPrice tokenUsdPrice : option number) : option Z :=
  try_or
    (match bridge, network, totalStaked, totalRewardsPerDay,
           rewardTokenUsdPrice, tokenUsdPrice with
     | Some bridge, Some network, Some totalStaked, Some totalRewardsPerDay,
       Some rewardTokenUsdPrice, Some tokenUsdPrice =>
         if negb (truthy rewardTokenUsdPrice && truthy tokenUsdPrice)
         then ret None
         else
           rewardTokenUsdPriceBn <-
             amountToBN (numberToString rewardTokenUsdPrice) 18 ;;
           tokenUsdPriceBn <- amountToBN (numberToString tokenUsdPrice) 18 ;;
           token <- getCanonicalToken bridge (slug network) ;;
           amm <- getAmm bridge (slug network) ;;
           stakedTotal <- calculateTotalAmountForLpToken amm totalStaked ;;
           if BigNumber.lte stakedTotal 0 then ret (Some 0)
           else
             stakedTotal18d <-
               shiftBNDecimals stakedTotal
                 (TOTAL_AMOUNTS_DECIMALS - decimals token) ;;
             precision <- amountToBN "1" 18 ;;
             let oneYear := 365 in
             quotient <-
               BigNumber.div
                 (BigNumber.mul
                    (BigNumber.mul totalRewardsPerDay rewardTokenUsdPriceBn)
                    precision)
                 (BigNumber.mul stakedTotal18d tokenUsdPriceBn) ;;
             ret (Some (BigNumber.mul quotient oneYear))
     | _, _, _, _, _, _ => ret None
     end)
    (fun _ => None).

(* ===================================================================== *)
(** ** TransactionOrchestrator (lines 290-414) *)
(* ===================================================================== *)

Record TransactionResponse : Type := {
  hash : string
}.

(** The write calls of the staking-rewards contract. *)
Inductive ContractCall : Type :=
| CallStake (amount : option Z)
| CallWithdraw (amount : Z)
| CallExit
| CallGetReward.

(** What an action asks of its collaborators, in the order it asks. *)
Inductive Event : Type :=
| EvCheckConnectedNetworkId (networkId : number)
| EvGetSignerOrProvider (slug : string)
| EvShow (kind : string)
| EvContractCall (call : ContractCall)
| EvSetAmount (amount : string)
| EvAddTransaction (hash networkName : string)
| EvWaitForTransaction (hash networkName : string)
| EvConsoleError (message : string).

(** What the user does with the confirmation prompt once it is shown. *)
Inductive Answer : Type :=
| Cancel
| Confirm (params : option number).

(** The collaborators' replies. *)
Record World : Type := {
  checkConnectedNetworkId : number -> result bool;
  getSignerOrProvider : string -> result Signer;
  (** [txConfirm] of the application context, with the user's answer. *)
  txConfirm : option Answer;
  (** The reply of the contract, connected to a signer, to a write call. *)
  send : Signer -> ContractCall -> result TransactionResponse;
  waitForTransaction : TransactionResponse -> result unit
}.

(** The [amount] field of the component and the requests made so far. *)
Record State : Type := {
  amount : string;
  events : list Event
}.

Definition Action (A : Type) : Type := State -> result A * State.

#[export] Instance action_monad : Monad Action := {
  ret := fun A a s => (Ok a, s);
  bind := fun A B c k s =>
    match c s with
    | (Ok a, s') => k a s'
    | (Throw m, s') => (Throw m, s')
    end
}.

Definition throw {A} (message : string) : Action A :=
  fun s => (Throw message, s).

Definition emit (e : Event) : Action unit :=
  fun s => (Ok tt, {| amount := amount s; events := events s ++ [e] |}).

(** A request to a collaborator: recorded, then answered. *)
Definition request {A} (e : Event) (reply : result A) : Action A :=
  fun s => (reply, {| amount := amount s; events := events s ++ [e] |}).

Definition setAmount (a : string) : Action unit :=
  fun s => (Ok tt, {| amount := a; events := events s ++ [EvSetAmount a] |}).

(** [try { body } catch (err) { handler }]. *)
Definition try_catch {A} (body : Action A) (handler : string -> Action A)
  : Action A :=
  fun s =>
    match body s with
    | (Ok a, s') => (Ok a, s')
    | (Throw m, s') => handler m s'
    end.

Definition console_error (message : string) : Action unit :=
  emit (EvConsoleError message).

(** Modelled from the spec: [txConfirm.show] belongs to the application
    context, which is not among the sources.  Section 6 gives its
    contract, [show({kind, inputProps, onConfirm}) -> tx | undefined],
    undefined on user cancel: a cancelled prompt resolves to undefined
    without running [onConfirm], a confirmed one resolves to what
    [onConfirm] returns for the parameters picked in the prompt. *)
Definition show (answer : Answer) (kind : string)
  (onConfirm : option number -> Action (option TransactionResponse))
  : Action (option TransactionResponse) :=
  emit (EvShow kind) ;;;
  match answer with
  | Cancel => ret None
  | Confirm params => onConfirm params
  end.

(** [txConfirm?.show(...)]. *)
Definition txConfirm_show (w : World) (kind : string)
  (onConfirm : option number -> Action (option TransactionResponse))
  : Action (option TransactionResponse) :=
  match txConfirm w with
  | None => ret None
  | Some answer => show answer kind onConfirm
  end.

(** [stakingRewards.connect(signer).f(...)]. *)
Definition call (w : World) (signer : Signer) (c : ContractCall)
  : Action (option TransactionResponse) :=
  tx <- request (EvContractCall c) (send w signer c) ;;
  ret (Some tx).

(** What the actions close over at the render that created them. *)
Record Render : Type := {
  network : option Network;
  stakingToken : option Token;
  stakingRewards : option Contract;
  stakeBalance : option Z;
  parsedAmount : option Z
}.

(** [tx?.hash] as a condition: the transaction when it is defined and its
    hash is truthy, that is not the empty string. *)
Definition with_hash (tx : option TransactionResponse)
  : option TransactionResponse :=
  match tx with
  | Some tx => if String.eqb (hash tx) "" then None else Some tx
  | None => None
  end.

(** [stake], lines 304-345. *)
Definition stake `{U : Utils} (w : World) (r : Render) : Action unit :=
  try_catch
    (match stakingRewards r with
     | None => throw "StakingRewards not instantiated"
     | Some stakingRewards =>
     match network r with
     | None => throw "Network must be defined"
     | Some network =>
         let networkId := stringToNumber (networkId network) in
         isNetworkConnected <-
           request (EvCheckConnectedNetworkId networkId)
                   (checkConnectedNetworkId w networkId) ;;
         if negb isNetworkConnected then ret tt
         else
           tx <- txConfirm_show w "stake"
                   (fun _ =>
                      signer <- request (EvGetSignerOrProvider (slug network))
                                  (getSignerOrProvider w (slug network)) ;;
                      call w signer (CallStake (parsedAmount r))) ;;
           match with_hash tx with
           | Some tx =>
               setAmount "" ;;;
               emit (EvAddTransaction (hash tx) (slug network)) ;;;
               request (EvWaitForTransaction (hash tx) (slug network))
                       (waitForTransaction w tx)
           | None => ret tt
           end
     end end)
    (fun err => console_error err).

(** [claim], lines 347-366. *)
Definition claim `{U : Utils} (w : World) (r : Render) : Action unit :=
  try_catch
    (match stakingRewards r with
     | None => throw "StakingRewards not instantiated"
     | Some stakingRewards =>
     match network r with
     | None => throw "Network must be defined"
     | Some network =>
         let networkId := stringToNumber (networkId network) in
         isNetworkConnected <-
           request (EvCheckConnectedNetworkId networkId)
                   (checkConnectedNetworkId w networkId) ;;
         if negb isNetworkConnected then ret tt
         else
           signer <- request (EvGetSignerOrProvider (slug network))
                       (getSignerOrProvider w (slug network)) ;;
           call w signer CallGetReward ;;;
           ret tt
     end end)
    (fun err => console_error err).

(** The [onConfirm] callback of [withdraw], lines 387-397. *)
Definition withdraw_onConfirm (w : World) (signer : Signer) (stakeBalance : Z)
  (amountPercent : option number) : Action (option TransactionResponse) :=
  match amountPercent with
  | None => ret None
  | Some amountPercent =>
      if negb (truthy amountPercent) then ret None
      else if strict_eq amountPercent (of_Z 100) then call w signer CallExit
      else
        match
          (factor <- BigNumber.from_number amountPercent ;;
           BigNumber.div (BigNumber.mul stakeBalance factor) 100)
        with
        | Throw m => throw m
        | Ok withdrawAmount => call w signer (CallWithdraw withdrawAmount)
        end
  end.

(** [withdraw], lines 368-414.  The [inputProps] of the prompt (the token
    and the formatted stake balance) are display data and do not reach a
    collaborator other than the prompt. *)
Definition withdraw `{U : Utils} (w : World) (r : Render) : Action unit :=
  try_catch
    (match stakingRewards r, network r, stakeBalance r with
     | Some stakingRewards, Some network, Some stakeBalance =>
         let networkId := stringToNumber (networkId network) in
         isNetworkConnected <-
           request (EvCheckConnectedNetworkId networkId)
                   (checkConnectedNetworkId w networkId) ;;
         if negb isNetworkConnected then ret tt
         else
           signer <- request (EvGetSignerOrProvider (slug network))
                       (getSignerOrProvider w (slug network)) ;;
           tx <- txConfirm_show w "withdrawStake"
                   (withdraw_onConfirm w signer stakeBalance) ;;
           match with_hash tx with
           | Some tx =>
               emit (EvAddTransaction (hash tx) (slug network)) ;;;
               request (EvWaitForTransaction (hash tx) (slug network))
                       (waitForTransaction w tx)
           | None => ret tt
           end
     | _, _, _ => throw "Missing withdraw param"
     end)
    (fun err => console_error err).

(** The contract calls among the requests of a run, in order. *)
Fixpoint contract_calls (l : list Event) : list ContractCall :=
  match l with
  | [] => []
  | EvContractCall c :: l => c :: contract_calls l
  | _ :: l => contract_calls l
  end.

(** An initial state: some text in the amount field, nothing requested. *)
Definition initial (amount : string) : State :=
  {| amount := amount; events := [] |}.

(* ===================================================================== *)
(** ** Reading a metric *)
(* ===================================================================== *)

(** A metric is absent when it carries no amount: it is [undefined], or
    the empty string that a catch clause leaves in its place. *)
Definition absent (v : value) : bool :=
  match v with
  | VUndefined => true
  | VString s => String.eqb s ""
  | VNumber _ | VBigNumber _ => false
  end.

(** A metric that is known to be zero, as a number or as a BigNumber. *)
Definition is_zero (v : value) : bool :=
  match v with
  | VNumber n => strict_eq n (of_Z 0)
  | VBigNumber z => z =? 0
  | VUndefined | VString _ => false
  end.

(** Whether a run showed the confirmation prompt, registered a
    transaction with the tracker, waited for one, or logged an error. *)
Definition is_show (e : Event) : bool :=
  match e with EvShow _ => true | _ => false end.
Definition is_addTransaction (e : Event) : bool :=
  match e with EvAddTransaction _ _ => true | _ => false end.
Definition is_waitForTransaction (e : Event) : bool :=
  match e with EvWaitForTransaction _ _ => true | _ => false end.
Definition is_setAmount (e : Event) : bool :=
  match e with EvSetAmount _ => true | _ => false end.
Definition is_console_error (e : Event) : bool :=
  match e with EvConsoleError _ => true | _ => false end.

(* ===================================================================== *)
(** ** An implementation of the helpers, for the examples *)
(* ===================================================================== *)

(** Modelled from the spec: [amountToBN] and [shiftBNDecimals] live in
    [src/utils], which is not among the sources.  Section 4.1 describes
    them as rescaling by a power of ten: scaling up pads zeros, scaling
    down truncates toward zero.  This instance follows it on whole
    numbers written in decimal and is only used to run the widget on
    concrete inputs. *)
Definition whole_amountToBN (s : string) (decimals : Z) : result Z :=
  match NilZero.int_of_string s with
  | Some i => Ok (Z.of_int i * 10 ^ decimals)
  | None => Throw "invalid decimal value"
  end.

Definition rescale (bn shiftAmount : Z) : result Z :=
  if 0 <=? shiftAmount then Ok (bn * 10 ^ shiftAmount)
  else Ok (Z.quot bn (10 ^ (- shiftAmount))).

Definition whole_numberToString (x : number) : string :=
  match x with
  | Finite q =>
      if Qeq_bool q (inject_Z (Qfloor q))
      then NilZero.string_of_int (Z.to_int (Qfloor q))
      else "fraction"
  | NaN => "NaN"
  | Infinity => "Infinity"
  | NegInfinity => "-Infinity"
  end.

Definition whole_stringToNumber (s : string) : number :=
  match NilZero.int_of_string s with
  | Some i => of_Z (Z.of_int i)
  | None => NaN
  end.

Definition whole_utils : Utils := {|
  amountToBN := whole_amountToBN;
  shiftBNDecimals := rescale;
  numberToString := whole_numberToString;
  stringToNumber := whole_stringToNumber
|}.

(* ===================================================================== *)
(** ** The rest of the widget *)
(* ===================================================================== *)

(** [parsedAmount], lines 81-82, as a function of the amount field: an
    empty field or a missing token gives undefined; [amountToBN] may
    throw on what was typed. *)
Definition parsedAmount_of `{U : Utils}
  (amount : string) (stakingToken : option Token) : result (option Z) :=
  if String.eqb amount "" then Ok None
  else
    match stakingToken with
    | Some stakingToken =>
        bn <- amountToBN amount (decimals stakingToken) ;;
        ret (Some bn)
    | None => Ok None
    end.

(** [a.pow(n)] for a number [n]: the exponent goes through
    [BigNumber.from], and a negative power is a fault. *)
Definition bn_pow (a n : Z) : result Z :=
  e <- BigNumber.from_number (of_Z n) ;;
  if e <? 0 then Throw "negative-power" else Ok (a ^ e).

(** [stakedPosition], lines 257-286.  There is no try around the body: a
    helper or an external call that throws rejects the computation. *)
Definition stakedPosition `{U : Utils}
  (bridge : option HopBridge) (network : option Network)
  (stakeBalance earned : option Z) (stakingToken : option Token)
  (rewardTokenUsdPrice tokenUsdPrice : option number) : result (option Z) :=
  match bridge, network, earned, rewardTokenUsdPrice, tokenUsdPrice,
        stakingToken, stakeBalance with
  | Some bridge, Some network, Some earned, Some rewardTokenUsdPrice,
    Some tokenUsdPrice, Some stakingToken, Some stakeBalance =>
      if negb (truthy rewardTokenUsdPrice && truthy tokenUsdPrice
               && BigNumber.gt stakeBalance 0)
      then ret None
      else
        rewardTokenUsdPriceBn <-
          amountToBN (numberToString rewardTokenUsdPrice)
            (decimals stakingToken) ;;
        tokenUsdPriceBn <-
          amountToBN (numberToString tokenUsdPrice) (decimals stakingToken) ;;
        token <- getCanonicalToken bridge (slug network) ;;
        amm <- getAmm bridge (slug network) ;;
        userStakedTotal <- calculateTotalAmountForLpToken amm stakeBalance ;;
        userStakedTotal18d <-
          shiftBNDecimals userStakedTotal
            (TOTAL_AMOUNTS_DECIMALS - decimals token) ;;
        unit <- bn_pow 10 (decimals stakingToken) ;;
        position <-
          BigNumber.div
            (BigNumber.add
               (BigNumber.mul userStakedTotal18d tokenUsdPriceBn)
               (BigNumber.mul earned rewardTokenUsdPriceBn))
            unit ;;
        ret (Some position)
  | _, _, _, _, _, _, _ => ret None
  end.

(** What the render shows, lines 465-523. *)

(** [totalRewardsPerDay?.gt(0)]: the "Total Rewards" row. *)
Definition showTotalRewards (totalRewardsPerDay : option Z) : bool :=
  match totalRewardsPerDay with
  | Some t => BigNumber.gt t 0
  | None => false
  end.

(** [!!userRewardsPerDay]: the "Your Rewards" row. *)
Definition showUserRewards (userRewardsPerDay : value) : bool :=
  value_truthy userRewardsPerDay.

(** [earned?.gt(0)]: the Claim button. *)
Definition showClaim (earned : option Z) : bool :=
  match earned with
  | Some e => BigNumber.gt e 0
  | None => false
  end.

(** [stakeBalance?.gt(0)]: the Withdraw button. *)
Definition showWithdraw (stakeBalance : option Z) : bool :=
  match stakeBalance with
  | Some b => BigNumber.gt b 0
  | None => false
  end.

(** [disabled={!needsApproval}] on the Approve button. *)
Definition approveDisabled (needsApproval : option bool) : bool :=
  negb (holds needsApproval).

(** [disabled={!isStakeEnabled}] on the Stake button. *)
Definition stakeDisabled (isStakeEnabled : bool) : bool :=
  negb isStakeEnabled.

(** The transaction that [useApprove]'s [approve] hands back. *)
Record ApprovalTx : Type := {
  wait : result unit
}.

(** What [approveToken] asks of its collaborators. *)
Inductive ApproveEvent : Type :=
| ApCheckConnectedNetworkId (networkId : number)
| ApApprove (amount : Z) (tokenSymbol spender : string)
| ApWait.

(** [approveToken], lines 290-302.  It has no try of its own: what is
    thrown inside it reaches the caller.  [approve] is the function of
    the [useApprove] hook; it may hand back no transaction. *)
Definition approveToken `{U : Utils} (w : World)
  (approve : Z -> Token -> string -> result (option ApprovalTx))
  (r : Render) : result unit * list ApproveEvent :=
  match stakingRewards r, network r, stakingToken r with
  | Some stakingRewards, Some network, Some stakingToken =>
      let networkId := stringToNumber (networkId network) in
      let asked := [ApCheckConnectedNetworkId networkId] in
      match checkConnectedNetworkId w networkId with
      | Throw m => (Throw m, asked)
      | Ok isNetworkConnected =>
          match isNetworkConnected, parsedAmount r with
          | true, Some parsedAmount =>
              let asked :=
                (asked ++ [ApApprove parsedAmount (symbol stakingToken)
                             (contractAddress stakingRewards)])%list in
              match approve parsedAmount stakingToken
                      (contractAddress stakingRewards) with
              | Throw m => (Throw m, asked)
              | Ok None => (Ok tt, asked)
              | Ok (Some tx) => (wait tx, (asked ++ [ApWait])%list)
              end
          | _, _ => (Ok tt, asked)
          end
      end
  | _, _, _ => (Throw "Undefined approval parameter", [])
  end.

(** The closure of the next render: the amount field is parsed again. *)
Definition rerender `{U : Utils} (r : Render) (s : State) : result Render :=
  parsed <- parsedAmount_of (amount s) (stakingToken r) ;;
  ret {| network := network r;
         stakingToken := stakingToken r;
         stakingRewards := stakingRewards r;
         stakeBalance := stakeBalance r;
         parsedAmount := parsed |}.

(* ===================================================================== *)
(** * Properties *)
(* ===================================================================== *)

(** ** ActionGateKeeper *)

Lemma needsApproval_unknown address allowance parsedAmount :
  allowance = None \/ parsedAmount = None ->
  needsApproval address allowance parsedAmount = None.
Proof.
  intros [-> | ->]; destruct address; simpl; trivial.
  destruct allowance; trivial.
Qed.

Lemma needsApproval_known (a : Address) allowance parsedAmount :
  needsApproval (Some a) (Some allowance) (Some parsedAmount)
  = Some (allowance <? parsedAmount).
Proof. reflexivity. Qed.

(** The poll callback delivers an allowance only when it runs with a
    connected address; what it delivered stays known to later renders. *)
Lemma allowance_callback_connected address stakingRewards stakingToken a :
  allowance_callback address stakingRewards stakingToken = Ok (Some a) ->
  address <> None.
Proof. destruct address; [discriminate|]. discriminate. Qed.

(** Without a connected address nothing is known, whatever was polled. *)
Lemma needsApproval_disconnected allowance parsedAmount :
  needsApproval None allowance parsedAmount = None.
Proof. reflexivity. Qed.

(** C5, as the specification states it, fails for a disconnected wallet:
    an allowance fetched earlier is still known and lies below the
    entered amount, yet [needsApproval] is undefined and not [true]. *)
Lemma needsApproval_undefined_when_disconnected :
  5 < 7
  /\ needsApproval None (Some 5) (Some 7) = None
  /\ needsApproval None (Some 5) (Some 7) <> Some true.
Proof. split; [lia | split; [reflexivity | discriminate]]. Qed.

(** C5, amended.  [needsApproval] is [true] exactly when a wallet address
    is connected, the allowance and the entered amount are both known,
    and the allowance is strictly below the amount; with an address
    connected it is the outcome of that comparison whenever both are
    known; and it is undefined as soon as the address, the allowance or
    the amount is missing. *)
Theorem needsApproval_spec
  (address : option Address) (allowance parsedAmount : option Z) :
  (needsApproval address allowance parsedAmount = Some true <->
     exists addr a p,
       address = Some addr /\ allowance = Some a /\ parsedAmount = Some p
       /\ a < p)
  /\ (forall addr a p,
        address = Some addr -> allowance = Some a -> parsedAmount = Some p ->
        needsApproval address allowance parsedAmount = Some (a <? p))
  /\ (address = None \/ allowance = None \/ parsedAmount = None ->
        needsApproval address allowance parsedAmount = None).
Proof.
  split; [split|split].
  - destruct address as [addr|], allowance as [a|], parsedAmount as [p|];
      simpl; try discriminate.
    intros [= Hlt]. exists addr, a, p.
    split; [|split; [|split]]; trivial. now apply Z.ltb_lt.
  - intros (addr & a & p & -> & -> & -> & Hlt).
    simpl. unfold BigNumber.lt. apply Z.ltb_lt in Hlt. now rewrite Hlt.
  - intros addr a p -> -> ->. reflexivity.
  - intros [-> | Hunknown]; [apply needsApproval_disconnected|].
    now apply needsApproval_unknown.
Qed.

Lemma needsApproval_spec_witness :
  needsApproval (Some "0xabc") (Some 5) (Some 7) = Some true
  /\ needsApproval (Some "0xabc") (Some 7) (Some 7) = Some false
  /\ needsApproval None (Some 5) (Some 7) = None.
Proof.
  split; [|split].
  - apply (proj1 (needsApproval_spec (Some "0xabc") (Some 5) (Some 7))).
    exists "0xabc", 5, 7. split; [|split; [|split]]; trivial. lia.
  - exact (proj1 (proj2
             (needsApproval_spec (Some "0xabc") (Some 7) (Some 7)))
             "0xabc" 7 7 eq_refl eq_refl eq_refl).
  - apply (proj2 (proj2 (needsApproval_spec None (Some 5) (Some 7)))).
    now left.
Defined.

(** C6.  [isStakeEnabled] is [true] if and only if the entered amount and
    the balance are both present, [needsApproval] does not hold, and the
    amount does not exceed the balance; it is [false] whenever
    [needsApproval] is [true]. *)
Theorem isStakeEnabled_spec
  (parsedAmount lpBalance : option Z) (needsApproval : option bool) :
  (isStakeEnabled parsedAmount lpBalance needsApproval = true <->
     exists p b, parsedAmount = Some p /\ lpBalance = Some b
                 /\ needsApproval <> Some true /\ p <= b)
  /\ (needsApproval = Some true ->
        isStakeEnabled parsedAmount lpBalance needsApproval = false).
Proof.
  split; [split|].
  - destruct parsedAmount as [p|], lpBalance as [b|]; simpl; try discriminate.
    destruct needsApproval as [[|]|]; simpl; try discriminate;
      unfold BigNumber.gt; destruct (b <? p) eqn:E; try discriminate;
      intros _; exists p, b; apply Z.ltb_ge in E;
      repeat split; trivial; discriminate.
  - intros (p & b & -> & -> & Hna & Hle). simpl.
    destruct needsApproval as [[|]|]; simpl; try congruence;
      unfold BigNumber.gt; apply Z.ltb_ge in Hle; now rewrite Hle.
  - intros ->. destruct parsedAmount, lpBalance; reflexivity.
Qed.

Lemma isStakeEnabled_spec_witness :
  isStakeEnabled (Some 3) (Some 3) (Some false) = true
  /\ isStakeEnabled (Some 3) (Some 9) (Some true) = false.
Proof.
  split.
  - apply (isStakeEnabled_spec (Some 3) (Some 3) (Some false)).
    exists 3, 3. repeat split; [discriminate | lia].
  - apply (isStakeEnabled_spec (Some 3) (Some 9) (Some true)). reflexivity.
Defined.

(** C9.  While the allowance has not been fetched, [needsApproval] is
    undefined, and an entered amount within the balance already enables
    staking. *)
Theorem isStakeEnabled_before_allowance
  (address : option Address) (parsedAmount lpBalance : Z) :
  parsedAmount <= lpBalance ->
  needsApproval address None (Some parsedAmount) = None
  /\ isStakeEnabled (Some parsedAmount) (Some lpBalance)
       (needsApproval address None (Some parsedAmount)) = true.
Proof.
  intros Hle.
  assert (Hna : needsApproval address None (Some parsedAmount) = None)
    by (apply needsApproval_unknown; now left).
  split; [exact Hna|]. rewrite Hna. simpl.
  unfold BigNumber.gt. apply Z.ltb_ge in Hle. now rewrite Hle.
Qed.

Lemma isStakeEnabled_before_allowance_witness :
  needsApproval (Some "0xabc") None (Some 40) = None
  /\ isStakeEnabled (Some 40) (Some 100)
       (needsApproval (Some "0xabc") None (Some 40)) = true.
Proof.
  apply (isStakeEnabled_before_allowance (Some "0xabc") 40 100). lia.
Defined.

(** ** Program expiry *)

Lemma truthy_of_Z z : truthy (of_Z z) = negb (z =? 0).
Proof.
  unfold truthy, of_Z, Qeq_bool, inject_Z. simpl.
  rewrite Z.mul_1_r. reflexivity.
Qed.

(** Reading a positive integer back as a double never yields zero. *)
Lemma round53_pos n : 0 < n -> 0 < BigNumber.round53 n.
Proof.
  intros Hn. unfold BigNumber.round53.
  destruct (n <? 2 ^ 53) eqn:Hsmall; [exact Hn|].
  apply Z.ltb_ge in Hsmall.
  assert (Hlog : 53 <= Z.log2 n).
  { apply Z.log2_le_pow2; [exact Hn | exact Hsmall]. }
  set (e := Z.log2 n - 52).
  assert (He : 0 <= e) by (unfold e; lia).
  assert (Hpow : 0 < 2 ^ e) by (apply Z.pow_pos_nonneg; lia).
  assert (Hle : 2 ^ e <= n).
  { destruct (Z.log2_spec n Hn) as [Hlo _].
    apply Z.le_trans with (2 ^ Z.log2 n); [|exact Hlo].
    apply Z.pow_le_mono_r; unfold e; lia. }
  assert (Hq : 1 <= n / 2 ^ e).
  { apply Z.div_le_lower_bound; lia. }
  destruct ((2 ^ (e - 1) <? n mod 2 ^ e)
            || (n mod 2 ^ e =? 2 ^ (e - 1)) && Z.odd (n / 2 ^ e));
    apply Z.mul_pos_pos; lia.
Qed.

Lemma toNumber_truthy t :
  truthy (BigNumber.toNumber t) = negb (t =? 0).
Proof.
  unfold BigNumber.toNumber. rewrite truthy_of_Z. f_equal.
  destruct (Z.eq_dec t 0) as [-> | Hnz]; [reflexivity|].
  assert (Hr : 0 < BigNumber.round53 (Z.abs t)) by (apply round53_pos; lia).
  destruct (Z.eqb_spec t 0) as [|_]; [contradiction|].
  apply Z.eqb_neq, Z.neq_mul_0. split; [|lia].
  destruct t; simpl; [contradiction | discriminate | discriminate].
Qed.

Lemma rewardsExpired_of_timestamp dateNow c t :
  periodFinish c = Ok t ->
  rewardsExpired dateNow (expireDate (Some c))
  = if t =? 0 then None
    else Some (gt (now_seconds dateNow) (BigNumber.toNumber t)).
Proof.
  intros Hread. unfold expireDate, rewardsExpired. rewrite Hread.
  cbn [try_or bind ret result_monad].
  rewrite toNumber_truthy. destruct (t =? 0); reflexivity.
Qed.

(** C10.  [rewardsExpired] is a boolean only when a [periodFinish]
    timestamp was fetched and is not zero.  For a fetched timestamp of
    zero it is undefined and not [true], although the comparison that the
    guard skips, the current time against zero, would hold at any clock
    reading from one second after the epoch up to the 32-bit horizon. *)
Theorem rewardsExpired_zero_timestamp
  (dateNow : Z) (stakingRewards : option Contract) :
  (forall b, rewardsExpired dateNow (expireDate stakingRewards) = Some b ->
     exists c t, stakingRewards = Some c /\ periodFinish c = Ok t /\ t <> 0)
  /\ (forall c, stakingRewards = Some c -> periodFinish c = Ok 0 ->
        rewardsExpired dateNow (expireDate stakingRewards) = None
        /\ (1000 <= dateNow < 2 ^ 31 * 1000 ->
            gt (now_seconds dateNow) (BigNumber.toNumber 0) = true)).
Proof.
  split.
  - intros b Hb. destruct stakingRewards as [c|]; [|discriminate].
    destruct (periodFinish c) as [t|m] eqn:Hread.
    + rewrite (rewardsExpired_of_timestamp dateNow c t Hread) in Hb.
      destruct (Z.eqb_spec t 0); [discriminate|].
      exists c, t. repeat split; trivial.
    + unfold expireDate in Hb. rewrite Hread in Hb. discriminate.
  - intros c -> Hread. split.
    + now rewrite (rewardsExpired_of_timestamp dateNow c 0 Hread).
    + intros Hclock. unfold now_seconds, to_int32.
      assert (Hfloor : Qfloor (Qmake dateNow 1000) = dateNow / 1000)
        by reflexivity.
      assert (Hsec : 1 <= dateNow / 1000 < 2 ^ 31).
      { split; [apply Z.div_le_lower_bound; lia
               | apply Z.div_lt_upper_bound; lia]. }
      assert (Hnonneg : Qle_bool 0 (Qmake dateNow 1000) = true).
      { unfold Qle_bool. simpl. apply Z.leb_le. lia. }
      rewrite Hnonneg, Hfloor.
      rewrite Z.mod_small by lia.
      destruct (Z.ltb_spec (dateNow / 1000) (2 ^ 31)) as [_|]; [|lia].
      unfold gt, of_Z, BigNumber.toNumber, Qle_bool, inject_Z. simpl.
      rewrite Z.mul_1_r. apply negb_true_iff, Z.leb_gt. lia.
Qed.

Lemma rewardsExpired_zero_timestamp_witness :
  let c := {| contractAddress := "0x5D13179c5fa40b87D53Ff67ca26245D3D5B2F872";
              periodFinish := Ok 0; rewardRate := Ok 1 |} in
  rewardsExpired 1700000000000 (expireDate (Some c)) = None
  /\ gt (now_seconds 1700000000000) (BigNumber.toNumber 0) = true.
Proof.
  intro c.
  destruct (proj2 (rewardsExpired_zero_timestamp 1700000000000 (Some c))
              c eq_refl eq_refl) as [Hnone Hgt].
  split; [exact Hnone | apply Hgt; lia].
Defined.

(** ** YieldCalculator *)

Lemma totalRewardsPerDay_active c r :
  rewardRate c = Ok r ->
  totalRewardsPerDay (Some c) (Some false) = Some (r * 86400).
Proof. intros Hr. unfold totalRewardsPerDay. now rewrite Hr. Qed.

Lemma totalRewardsPerDay_expired c :
  totalRewardsPerDay (Some c) (Some true) = Some 0.
Proof. reflexivity. Qed.

(** Nobody staking: undefined, whether or not the program has expired. *)
Lemma userRewardsPerDay_no_stake stakingRewards sb totalStaked expired :
  sb <= 0 ->
  userRewardsPerDay stakingRewards (Some sb) totalStaked expired = VUndefined.
Proof.
  intros Hsb. unfold userRewardsPerDay.
  destruct stakingRewards, totalStaked, expired; try reflexivity.
  unfold BigNumber.gt. apply Z.ltb_ge in Hsb. now rewrite Hsb.
Qed.

(** The share of a staker while the program runs. *)
Lemma userRewardsPerDay_active c r sb ts :
  rewardRate c = Ok r -> 0 < sb -> ts <> 0 ->
  userRewardsPerDay (Some c) (Some sb) (Some ts) (Some false)
  = VBigNumber (Z.quot (r * 86400 * sb) ts).
Proof.
  intros Hr Hsb Hts. unfold userRewardsPerDay, BigNumber.gt, BigNumber.div.
  apply Z.ltb_lt in Hsb. apply Z.eqb_neq in Hts.
  rewrite Hsb, Hr. cbn [negb bind ret result_monad try_or].
  now rewrite Hts.
Qed.

(** An empty pool with a staker in it: the division throws and the catch
    clause answers with the empty string. *)
Lemma userRewardsPerDay_empty_pool c sb :
  0 < sb ->
  userRewardsPerDay (Some c) (Some sb) (Some 0) (Some false) = VString "".
Proof.
  intros Hsb. unfold userRewardsPerDay, BigNumber.gt.
  apply Z.ltb_lt in Hsb. rewrite Hsb.
  destruct (rewardRate c); reflexivity.
Qed.

(** While the program runs the metric is either absent or a BigNumber;
    it is never the number [0] of the expired branch. *)
Lemma userRewardsPerDay_absent_or_amount
  stakingRewards stakeBalance totalStaked :
  let v := userRewardsPerDay stakingRewards stakeBalance totalStaked
             (Some false) in
  absent v = true \/ exists z, v = VBigNumber z.
Proof.
  cbv zeta. unfold userRewardsPerDay.
  destruct stakingRewards as [c|], stakeBalance as [sb|], totalStaked as [ts|];
    try (left; reflexivity).
  destruct (negb (BigNumber.gt sb 0)); [left; reflexivity|].
  destruct (rewardRate c) as [r|m]; [|left; reflexivity].
  cbn [bind ret result_monad try_or]. unfold BigNumber.div.
  destruct (ts =? 0); [left; reflexivity | right; eexists; reflexivity].
Qed.

(** C3.  With [rewardsExpired] known to be [false]:
    a staker's rewards per day are the total rewards per day times the
    stake balance over the total staked, in truncating integer
    arithmetic; and whenever the total staked is zero or the stake
    balance is zero the metric is absent: undefined for a zero stake
    balance, and for an empty pool the empty string left by the catch
    clause that stops the division by zero.  It is then not zero, and
    no exception leaves the computation. *)
Theorem userRewardsPerDay_share
  (stakingRewards : option Contract) (stakeBalance totalStaked : option Z) :
  let user := userRewardsPerDay stakingRewards stakeBalance totalStaked
                (Some false) in
  (forall c r sb ts,
      stakingRewards = Some c -> rewardRate c = Ok r ->
      stakeBalance = Some sb -> totalStaked = Some ts ->
      0 < sb -> ts <> 0 ->
      exists total,
        totalRewardsPerDay stakingRewards (Some false) = Some total
        /\ user = VBigNumber (Z.quot (total * sb) ts))
  /\ (totalStaked = Some 0 \/ stakeBalance = Some 0 ->
        absent user = true /\ is_zero user = false
        /\ value_truthy user = false).
Proof.
  intro user. split.
  - intros c r sb ts -> Hr -> -> Hsb Hts. exists (r * 86400). split.
    + now apply totalRewardsPerDay_active.
    + now apply userRewardsPerDay_active.
  - intros [-> | ->].
    + subst user. destruct stakingRewards as [c|], stakeBalance as [sb|];
        try (repeat split; reflexivity).
      destruct (Z.lt_ge_cases 0 sb) as [Hsb | Hsb].
      * rewrite userRewardsPerDay_empty_pool by exact Hsb.
        repeat split; reflexivity.
      * rewrite userRewardsPerDay_no_stake by exact Hsb.
        repeat split; reflexivity.
    + subst user. rewrite userRewardsPerDay_no_stake by lia.
      repeat split; reflexivity.
Qed.

Lemma userRewardsPerDay_share_witness :
  let c := {| contractAddress := "0x5D13179c5fa40b87D53Ff67ca26245D3D5B2F872";
              periodFinish := Ok 1900000000; rewardRate := Ok 7 |} in
  (exists total,
      totalRewardsPerDay (Some c) (Some false) = Some total
      /\ userRewardsPerDay (Some c) (Some 10) (Some 30) (Some false)
         = VBigNumber (Z.quot (total * 10) 30))
  /\ absent (userRewardsPerDay (Some c) (Some 10) (Some 0) (Some false))
     = true
  /\ absent (userRewardsPerDay (Some c) (Some 0) (Some 30) (Some false))
     = true.
Proof.
  intro c. split; [|split].
  - apply (proj1 (userRewardsPerDay_share (Some c) (Some 10) (Some 30))
             c 7 10 30); trivial; lia.
  - apply (proj2 (userRewardsPerDay_share (Some c) (Some 10) (Some 0))).
    now left.
  - apply (proj2 (userRewardsPerDay_share (Some c) (Some 0) (Some 30))).
    now right.
Defined.

Lemma rewardsExpired_known dateNow stakingRewards b :
  rewardsExpired dateNow (expireDate stakingRewards) = Some b ->
  exists c, stakingRewards = Some c.
Proof.
  destruct stakingRewards as [c|]; [eauto | discriminate].
Qed.

Lemma userRewardsPerDay_expired c sb ts :
  0 < sb ->
  userRewardsPerDay (Some c) (Some sb) (Some ts) (Some true)
  = VNumber (of_Z 0).
Proof.
  intros Hsb. unfold userRewardsPerDay, BigNumber.gt.
  apply Z.ltb_lt in Hsb. now rewrite Hsb.
Qed.

Lemma userRewardsPerDay_missing_input stakingRewards stakeBalance totalStaked
  expired :
  stakeBalance = None \/ totalStaked = None ->
  userRewardsPerDay stakingRewards stakeBalance totalStaked expired
  = VUndefined.
Proof.
  intros [-> | ->]; destruct stakingRewards; try reflexivity;
    destruct stakeBalance; reflexivity.
Qed.

(** The scenario of the specification at any unit [u]: one token per
    second, a stake of 1000 in a pool of 4000. *)
Lemma scenario_share u :
  0 < u -> Z.quot (1 * u * 86400 * (1000 * u)) (4000 * u) = 21600 * u.
Proof.
  intros Hu.
  replace (1 * u * 86400 * (1000 * u)) with (21600 * u * (4000 * u)) by ring.
  apply Z.quot_mul. lia.
Qed.

(** C4, as the specification states it, fails on an expired program for a
    user without a stake: the total rewards per day are zero, the user's
    rewards per day are undefined and not zero. *)
Lemma expired_without_stake_is_undefined :
  let c := {| contractAddress := "0x5D13179c5fa40b87D53Ff67ca26245D3D5B2F872";
              periodFinish := Ok 1600000000; rewardRate := Ok 1 |} in
  let expired := rewardsExpired 1700000000000 (expireDate (Some c)) in
  expired = Some true
  /\ totalRewardsPerDay (Some c) expired = Some 0
  /\ userRewardsPerDay (Some c) (Some 0) (Some 4000) expired = VUndefined
  /\ is_zero (userRewardsPerDay (Some c) (Some 0) (Some 4000) expired)
     = false.
Proof. vm_compute. repeat split. Qed.

(** C4, amended.  With [rewardsExpired] known: the total rewards per day
    are zero when it is [true] and the reward rate per second times 86400
    when it is [false]; when it is [true] the user's rewards per day are
    zero provided the stake balance and the total staked are present and
    the stake balance is positive, and undefined otherwise.  In the
    scenario (stake 1000, total staked 4000, rate 1, at any common unit
    such as 10^18, not expired) the totals are 86400 and 21600. *)
Theorem rewards_per_day_spec
  (dateNow : Z) (stakingRewards : option Contract)
  (stakeBalance totalStaked : option Z) (b : bool) :
  rewardsExpired dateNow (expireDate stakingRewards) = Some b ->
  let total := totalRewardsPerDay stakingRewards (Some b) in
  let user := userRewardsPerDay stakingRewards stakeBalance totalStaked
                (Some b) in
  (b = true -> total = Some 0)
  /\ (b = false -> forall c r,
        stakingRewards = Some c -> rewardRate c = Ok r ->
        total = Some (r * 86400))
  /\ (b = true -> forall sb ts,
        stakeBalance = Some sb -> totalStaked = Some ts -> 0 < sb ->
        user = VNumber (of_Z 0) /\ is_zero user = true)
  /\ (b = true ->
        stakeBalance = None \/ totalStaked = None
        \/ (exists sb, stakeBalance = Some sb /\ sb <= 0) ->
        user = VUndefined)
  /\ (b = false -> forall c u,
        stakingRewards = Some c -> 0 < u -> rewardRate c = Ok (1 * u) ->
        stakeBalance = Some (1000 * u) -> totalStaked = Some (4000 * u) ->
        total = Some (86400 * u) /\ user = VBigNumber (21600 * u)).
Proof.
  intros Hknown total user.
  destruct (rewardsExpired_known _ _ _ Hknown) as [c0 ->].
  subst total user. split; [|split; [|split; [|split]]].
  - intros ->. reflexivity.
  - intros -> c r [= <-] Hr. now apply totalRewardsPerDay_active.
  - intros -> sb ts -> -> Hsb.
    rewrite userRewardsPerDay_expired by exact Hsb. split; reflexivity.
  - intros -> [H | [H | (sb & -> & Hsb)]].
    + apply userRewardsPerDay_missing_input. now left.
    + apply userRewardsPerDay_missing_input. now right.
    + now apply userRewardsPerDay_no_stake.
  - intros -> c u [= <-] Hu Hr -> ->. split.
    + rewrite (totalRewardsPerDay_active c0 (1 * u) Hr). f_equal. ring.
    + rewrite (userRewardsPerDay_active c0 (1 * u)) by (trivial; lia).
      f_equal. now apply scenario_share.
Qed.

Lemma rewards_per_day_spec_witness :
  let c := {| contractAddress := "0x5D13179c5fa40b87D53Ff67ca26245D3D5B2F872";
              periodFinish := Ok 1900000000; rewardRate := Ok (1 * 10 ^ 18) |}
  in
  rewardsExpired 1700000000000 (expireDate (Some c)) = Some false
  /\ totalRewardsPerDay (Some c) (Some false) = Some (86400 * 10 ^ 18)
  /\ userRewardsPerDay (Some c) (Some (1000 * 10 ^ 18))
       (Some (4000 * 10 ^ 18)) (Some false)
     = VBigNumber (21600 * 10 ^ 18).
Proof.
  intro c.
  assert (Hknown : rewardsExpired 1700000000000 (expireDate (Some c))
                   = Some false) by (vm_compute; reflexivity).
  split; [exact Hknown|].
  apply (proj2 (proj2 (proj2 (proj2
           (rewards_per_day_spec 1700000000000 (Some c)
              (Some (1000 * 10 ^ 18)) (Some (4000 * 10 ^ 18)) false
              Hknown))))
           eq_refl c (10 ^ 18) eq_refl);
    [lia | reflexivity | reflexivity | reflexivity].
Defined.

(** C7.  With every input of [apr] present (bridge, network, total
    staked, total rewards per day and both prices) and every external
    call answering: when the valuation of the total staked amount is zero
    or negative the figure is exactly zero; otherwise it is

      totalRewardsPerDay * rewardTokenUsdPrice * precision
        / (valuation rescaled to 18 decimals * stakingTokenUsdPrice) * 365

    in integers, the division truncating, for every non-zero divisor. *)
Theorem apr_spec
  (U : Utils) (bridge : HopBridge) (network : Network)
  (totalStaked totalRewardsPerDay : Z)
  (rewardTokenUsdPrice tokenUsdPrice : number)
  (rewardTokenUsdPriceBn tokenUsdPriceBn : Z)
  (token : Token) (amm : Amm) (stakedTotal : Z) :
  truthy rewardTokenUsdPrice = true ->
  truthy tokenUsdPrice = true ->
  amountToBN (numberToString rewardTokenUsdPrice) 18
    = Ok rewardTokenUsdPriceBn ->
  amountToBN (numberToString tokenUsdPrice) 18 = Ok tokenUsdPriceBn ->
  getCanonicalToken bridge (slug network) = Ok token ->
  getAmm bridge (slug network) = Ok amm ->
  calculateTotalAmountForLpToken amm totalStaked = Ok stakedTotal ->
  let rate := apr (Some bridge) (Some network) (Some totalStaked)
                (Some totalRewardsPerDay)
                (Some rewardTokenUsdPrice) (Some tokenUsdPrice) in
  (stakedTotal <= 0 -> rate = Some 0)
  /\ (0 < stakedTotal ->
      forall stakedTotal18d precision,
        shiftBNDecimals stakedTotal (TOTAL_AMOUNTS_DECIMALS - decimals token)
          = Ok stakedTotal18d ->
        amountToBN "1" 18 = Ok precision ->
        stakedTotal18d * tokenUsdPriceBn <> 0 ->
        rate = Some (Z.quot
                       (totalRewardsPerDay * rewardTokenUsdPriceBn * precision)
                       (stakedTotal18d * tokenUsdPriceBn)
                     * 365)).
Proof.
  intros Hr Ht HrBn HtBn Htoken Hamm Hval rate. subst rate.
  unfold apr. rewrite Hr, Ht. cbn [andb negb].
  cbn [bind ret result_monad].
  rewrite HrBn, HtBn, Htoken, Hamm, Hval. unfold BigNumber.lte.
  split.
  - intros Hle. apply Z.leb_le in Hle. now rewrite Hle.
  - intros Hpos s18 precision Hshift Hprec Hden.
    apply Z.leb_gt in Hpos. rewrite Hpos, Hshift, Hprec.
    unfold BigNumber.div, BigNumber.mul.
    apply Z.eqb_neq in Hden. now rewrite Hden.
Qed.

Lemma apr_spec_witness :
  let usdc := {| symbol := "USDC"; decimals := 6; tokenSigner := None;
                 tokenAllowance := fun _ => Ok 0 |} in
  let pool := {| calculateTotalAmountForLpToken :=
                   fun lp => Ok (lp / 10 ^ 12) |} in
  let bridge := {| getCanonicalToken := fun _ => Ok usdc;
                   getAmm := fun _ => Ok pool |} in
  let polygon := {| slug := "polygon"; networkId := "137" |} in
  apr (U := whole_utils) (Some bridge) (Some polygon)
      (Some (4000 * 10 ^ 18)) (Some (86400 * 10 ^ 18))
      (Some (of_Z 2)) (Some (of_Z 1))
  = Some (15768 * 10 ^ 18)
  /\ apr (U := whole_utils) (Some bridge) (Some polygon)
       (Some 0) (Some (86400 * 10 ^ 18)) (Some (of_Z 2)) (Some (of_Z 1))
     = Some 0.
Proof.
  intros usdc pool bridge polygon. split.
  - apply (proj2 (apr_spec whole_utils bridge polygon
                    (4000 * 10 ^ 18) (86400 * 10 ^ 18) (of_Z 2) (of_Z 1)
                    (2 * 10 ^ 18) (1 * 10 ^ 18) usdc pool (4000 * 10 ^ 6)
                    eq_refl eq_refl eq_refl eq_refl eq_refl eq_refl eq_refl)
             ltac:(lia) (4000 * 10 ^ 18) (1 * 10 ^ 18)
             eq_refl eq_refl ltac:(lia)).
  - apply (proj1 (apr_spec whole_utils bridge polygon
                    0 (86400 * 10 ^ 18) (of_Z 2) (of_Z 1)
                    (2 * 10 ^ 18) (1 * 10 ^ 18) usdc pool 0
                    eq_refl eq_refl eq_refl eq_refl eq_refl eq_refl eq_refl)).
    lia.
Defined.

(** ** TransactionOrchestrator *)

Lemma strict_eq_of_Z a b : strict_eq (of_Z a) (of_Z b) = (a =? b).
Proof.
  unfold strict_eq, of_Z, Qeq_bool, inject_Z. simpl.
  now rewrite !Z.mul_1_r.
Qed.

Lemma from_number_of_Z p :
  - BigNumber.MAX_SAFE < p < BigNumber.MAX_SAFE ->
  BigNumber.from_number (of_Z p) = Ok p.
Proof.
  intros [Hlo Hhi]. unfold BigNumber.from_number, of_Z.
  rewrite Qfloor_Z.
  assert (Hint : Qeq_bool (inject_Z p) (inject_Z p) = true)
    by (apply Qeq_bool_iff; reflexivity).
  rewrite Hint. cbn [negb].
  destruct (Z.leb_spec BigNumber.MAX_SAFE p); [lia|].
  destruct (Z.leb_spec p (- BigNumber.MAX_SAFE)); [lia|].
  reflexivity.
Qed.

Lemma contract_calls_app l1 l2 :
  contract_calls (l1 ++ l2) = (contract_calls l1 ++ contract_calls l2)%list.
Proof.
  induction l1 as [|e l1 IH]; [reflexivity|].
  destruct e; simpl; now rewrite IH.
Qed.

(** C1.  When [checkConnectedNetworkId] answers [false] for the target
    network, [stake] returns having made that one request and nothing
    else: the confirmation prompt is not shown, no contract call is sent,
    no transaction is registered with the tracker, and the amount field is
    untouched. *)
Theorem stake_wrong_network
  (U : Utils) (w : World) (r : Render) (s : State)
  (sr : Contract) (net : Network) :
  stakingRewards r = Some sr ->
  network r = Some net ->
  checkConnectedNetworkId w (stringToNumber (networkId net)) = Ok false ->
  let check := EvCheckConnectedNetworkId (stringToNumber (networkId net)) in
  stake w r s = (Ok tt, {| amount := amount s; events := events s ++ [check] |})
  /\ (forall a,
        let after := events (snd (stake w r (initial a))) in
        existsb is_show after = false
        /\ contract_calls after = []
        /\ existsb is_addTransaction after = false).
Proof.
  intros Hsr Hnet Hcheck check.
  assert (Hrun : forall s0,
             stake w r s0
             = (Ok tt, {| amount := amount s0;
                          events := events s0 ++ [check] |})).
  { intros s0. unfold stake, try_catch. rewrite Hsr, Hnet.
    cbn [bind ret action_monad]. unfold request. now rewrite Hcheck. }
  split; [apply Hrun|].
  intros a after. subst after. rewrite Hrun. repeat split.
Qed.

Lemma stake_wrong_network_witness :
  let w := {| checkConnectedNetworkId := fun _ => Ok false;
              getSignerOrProvider := fun _ => Ok "signer";
              txConfirm := Some (Confirm None);
              send := fun _ _ => Ok {| hash := "0x01" |};
              waitForTransaction := fun _ => Ok tt |} in
  let r := {| network := Some {| slug := "polygon"; networkId := "137" |};
              stakingToken := Some {| symbol := "LP"; decimals := 18;
                                     tokenSigner := Some "signer";
                                     tokenAllowance := fun _ => Ok 0 |};
              stakingRewards :=
                Some {| contractAddress := "0x5D13"; periodFinish := Ok 0;
                        rewardRate := Ok 1 |};
              stakeBalance := Some 0;
              parsedAmount := Some (5 * 10 ^ 18) |} in
  stake (U := whole_utils) w r (initial "5")
  = (Ok tt, {| amount := "5";
               events := [EvCheckConnectedNetworkId (of_Z 137)] |}).
Proof.
  intros w r.
  exact (proj1 (stake_wrong_network whole_utils w r (initial "5")
                  {| contractAddress := "0x5D13"; periodFinish := Ok 0;
                     rewardRate := Ok 1 |}
                  {| slug := "polygon"; networkId := "137" |}
                  eq_refl eq_refl eq_refl)).
Defined.

(** C8.  When the user cancels the confirmation prompt, so that it
    resolves to undefined, [stake] returns normally having only checked
    the network and shown the prompt: the amount field is not cleared, no
    transaction is registered, nothing is waited for, and no error is
    raised or logged. *)
Theorem stake_cancelled
  (U : Utils) (w : World) (r : Render) (s : State)
  (sr : Contract) (net : Network) :
  stakingRewards r = Some sr ->
  network r = Some net ->
  checkConnectedNetworkId w (stringToNumber (networkId net)) = Ok true ->
  txConfirm w = Some Cancel ->
  let check := EvCheckConnectedNetworkId (stringToNumber (networkId net)) in
  stake w r s
  = (Ok tt, {| amount := amount s;
               events := events s ++ [check; EvShow "stake"] |})
  /\ (forall a,
        let after := snd (stake w r (initial a)) in
        amount after = a
        /\ existsb is_setAmount (events after) = false
        /\ existsb is_addTransaction (events after) = false
        /\ existsb is_waitForTransaction (events after) = false
        /\ existsb is_console_error (events after) = false
        /\ contract_calls (events after) = []).
Proof.
  intros Hsr Hnet Hcheck Hcancel check.
  assert (Hrun : forall s0,
             stake w r s0
             = (Ok tt, {| amount := amount s0;
                          events := events s0 ++ [check; EvShow "stake"] |})).
  { intros s0. unfold stake, try_catch, txConfirm_show, show.
    rewrite Hsr, Hnet, Hcancel.
    cbn [bind ret action_monad]. unfold request, emit. rewrite Hcheck.
    cbn. now rewrite <- app_assoc. }
  split; [apply Hrun|].
  intros a after. subst after. rewrite Hrun. repeat split.
Qed.

Lemma stake_cancelled_witness :
  let w := {| checkConnectedNetworkId := fun _ => Ok true;
              getSignerOrProvider := fun _ => Ok "signer";
              txConfirm := Some Cancel;
              send := fun _ _ => Ok {| hash := "0x01" |};
              waitForTransaction := fun _ => Ok tt |} in
  let r := {| network := Some {| slug := "polygon"; networkId := "137" |};
              stakingToken := Some {| symbol := "LP"; decimals := 18;
                                     tokenSigner := Some "signer";
                                     tokenAllowance := fun _ => Ok 0 |};
              stakingRewards :=
                Some {| contractAddress := "0x5D13"; periodFinish := Ok 0;
                        rewardRate := Ok 1 |};
              stakeBalance := Some 0;
              parsedAmount := Some (5 * 10 ^ 18) |} in
  stake (U := whole_utils) w r (initial "5")
  = (Ok tt, {| amount := "5";
               events := [EvCheckConnectedNetworkId (of_Z 137);
                          EvShow "stake"] |}).
Proof.
  intros w r.
  exact (proj1 (stake_cancelled whole_utils w r (initial "5")
                  {| contractAddress := "0x5D13"; periodFinish := Ok 0;
                     rewardRate := Ok 1 |}
                  {| slug := "polygon"; networkId := "137" |}
                  eq_refl eq_refl eq_refl eq_refl)).
Defined.

(** Whatever the contract and the tracker answer, a confirmed withdrawal
    whose callback sends the call [c] has sent [c] and no other call. *)
Lemma withdraw_calls
  (U : Utils) (w : World) (r : Render) (s : State)
  (sr : Contract) (net : Network) (sb : Z) (signer : Signer)
  (params : option number) (c : ContractCall) :
  stakingRewards r = Some sr ->
  network r = Some net ->
  stakeBalance r = Some sb ->
  checkConnectedNetworkId w (stringToNumber (networkId net)) = Ok true ->
  getSignerOrProvider w (slug net) = Ok signer ->
  txConfirm w = Some (Confirm params) ->
  withdraw_onConfirm w signer sb params = call w signer c ->
  contract_calls (events (snd (withdraw w r s)))
  = (contract_calls (events s) ++ [c])%list.
Proof.
  intros Hsr Hnet Hsb Hcheck Hsigner Hconfirm Hcall.
  unfold withdraw, try_catch, txConfirm_show, show.
  rewrite Hsr, Hnet, Hsb, Hconfirm.
  cbn [bind ret action_monad]. unfold request, emit.
  rewrite Hcheck. cbn [negb amount events]. rewrite Hsigner, Hcall.
  unfold call, request. cbn [bind ret action_monad amount events].
  destruct (send w signer c) as [tx|m]; cbn [with_hash snd events].
  - destruct (String.eqb (hash tx) ""); cbn [snd events];
      [|destruct (waitForTransaction w tx); cbn [snd events console_error emit]];
      rewrite !contract_calls_app; cbn [contract_calls];
      now rewrite ?app_nil_r.
  - unfold console_error, emit. cbn [snd events].
    rewrite !contract_calls_app. cbn [contract_calls].
    now rewrite ?app_nil_r.
Qed.

(** A percentage of zero, or none at all, sends nothing: the callback
    returns before it reaches the contract. *)
Lemma withdraw_onConfirm_nothing (w : World) (signer : Signer) (sb : Z)
  (params : option number) (s : State) :
  params = None \/ params = Some (of_Z 0) ->
  withdraw_onConfirm w signer sb params s = (Ok None, s).
Proof. intros [-> | ->]; reflexivity. Qed.

(** C2.  A confirmed withdrawal with the stake balance known sends
    exactly one contract call: [exit()] and no partial withdraw when the
    chosen percentage is 100, and for any other percentage [p] a partial
    [withdraw] of exactly [stakeBalance * p / 100], the division
    truncating.  A percentage is a whole number from 1 to 100; the
    statement holds for every non-zero whole number that a BigNumber can
    be made from. *)
Theorem withdraw_percentage
  (U : Utils) (w : World) (r : Render) (s : State)
  (sr : Contract) (net : Network) (sb : Z) (signer : Signer) (p : Z) :
  stakingRewards r = Some sr ->
  network r = Some net ->
  stakeBalance r = Some sb ->
  checkConnectedNetworkId w (stringToNumber (networkId net)) = Ok true ->
  getSignerOrProvider w (slug net) = Ok signer ->
  txConfirm w = Some (Confirm (Some (of_Z p))) ->
  let calls := contract_calls (events (snd (withdraw w r s))) in
  (p = 100 -> calls = (contract_calls (events s) ++ [CallExit])%list)
  /\ (p <> 100 -> p <> 0 ->
      - BigNumber.MAX_SAFE < p < BigNumber.MAX_SAFE ->
      calls = (contract_calls (events s)
                 ++ [CallWithdraw (Z.quot (sb * p) 100)])%list).
Proof.
  intros Hsr Hnet Hsb Hcheck Hsigner Hconfirm calls. subst calls. split.
  - intros ->.
    apply (withdraw_calls U w r s sr net sb signer (Some (of_Z 100)));
      trivial.
  - intros H100 H0 Hsafe.
    apply (withdraw_calls U w r s sr net sb signer (Some (of_Z p)));
      trivial.
    unfold withdraw_onConfirm.
    rewrite truthy_of_Z, strict_eq_of_Z, from_number_of_Z by exact Hsafe.
    apply Z.eqb_neq in H100, H0. rewrite H100, H0. reflexivity.
Qed.

Lemma withdraw_percentage_witness :
  let w := {| checkConnectedNetworkId := fun _ => Ok true;
              getSignerOrProvider := fun _ => Ok "signer";
              txConfirm := Some (Confirm (Some (of_Z 50)));
              send := fun _ _ => Ok {| hash := "0x01" |};
              waitForTransaction := fun _ => Ok tt |} in
  let r := {| network := Some {| slug := "polygon"; networkId := "137" |};
              stakingToken := Some {| symbol := "LP"; decimals := 18;
                                     tokenSigner := Some "signer";
                                     tokenAllowance := fun _ => Ok 0 |};
              stakingRewards :=
                Some {| contractAddress := "0x5D13"; periodFinish := Ok 0;
                        rewardRate := Ok 1 |};
              stakeBalance := Some 1001;
              parsedAmount := None |} in
  contract_calls (events (snd (withdraw (U := whole_utils) w r (initial ""))))
  = [CallWithdraw 500].
Proof.
  intros w r.
  apply (proj2 (withdraw_percentage whole_utils w r (initial "")
                  {| contractAddress := "0x5D13"; periodFinish := Ok 0;
                     rewardRate := Ok 1 |}
                  {| slug := "polygon"; networkId := "137" |}
                  1001 "signer" 50
                  eq_refl eq_refl eq_refl eq_refl eq_refl eq_refl));
    unfold BigNumber.MAX_SAFE; lia.
Defined.

(* ===================================================================== *)
(** * Further properties of the widget *)
(* ===================================================================== *)

(** ** The buttons and the warning *)

(** X1.  For a connected wallet with allowance and balance known, staking
    is enabled exactly when the entered amount is covered by both the
    allowance and the balance. *)
Theorem isStakeEnabled_within_allowance_and_balance
  (addr : Address) (allowance p lpBalance : Z) :
  isStakeEnabled (Some p) (Some lpBalance)
    (needsApproval (Some addr) (Some allowance) (Some p)) = true
  <-> p <= allowance /\ p <= lpBalance.
Proof.
  unfold isStakeEnabled, needsApproval, holds, BigNumber.lt, BigNumber.gt.
  destruct (Z.ltb_spec allowance p), (Z.ltb_spec lpBalance p);
    split; try discriminate; try lia; intros _; reflexivity.
Qed.

(** X2.  With allowance and balance known and an amount within the
    balance, exactly one of the Approve and Stake buttons is enabled;
    whatever is known, the two are never enabled together. *)
Theorem approve_xor_stake
  (address : option Address) (allowance parsedAmount lpBalance : option Z) :
  let na := needsApproval address allowance parsedAmount in
  let enabled := isStakeEnabled parsedAmount lpBalance na in
  approveDisabled na || stakeDisabled enabled = true
  /\ (forall addr a p b,
        address = Some addr -> allowance = Some a ->
        parsedAmount = Some p -> lpBalance = Some b -> p <= b ->
        xorb (approveDisabled na) (stakeDisabled enabled) = true).
Proof.
  cbv zeta. split.
  - unfold approveDisabled, stakeDisabled, isStakeEnabled.
    destruct (holds (needsApproval address allowance parsedAmount));
      [|reflexivity].
    destruct parsedAmount, lpBalance; reflexivity.
  - intros addr a p b -> -> -> -> Hle.
    unfold approveDisabled, stakeDisabled, isStakeEnabled, needsApproval,
      holds, BigNumber.lt, BigNumber.gt.
    destruct (Z.ltb_spec a p), (Z.ltb_spec b p); try reflexivity; lia.
Qed.

Lemma approve_xor_stake_witness :
  xorb (approveDisabled (needsApproval (Some "0xabc") (Some 5) (Some 7)))
       (stakeDisabled
          (isStakeEnabled (Some 7) (Some 9)
             (needsApproval (Some "0xabc") (Some 5) (Some 7)))) = true.
Proof.
  apply (proj2 (approve_xor_stake (Some "0xabc") (Some 5) (Some 7) (Some 9))
           "0xabc" 5 7 9); trivial; lia.
Defined.

(** X3.  The warning is shown exactly when amount and balance are both
    known and the amount exceeds the balance, and then staking is
    disabled whatever the approval state. *)
Theorem warning_iff_insufficient
  (parsedAmount lpBalance : option Z) (na : option bool) :
  (warning parsedAmount lpBalance = Some "Insufficient balance" <->
     exists p b, parsedAmount = Some p /\ lpBalance = Some b /\ b < p)
  /\ (warning parsedAmount lpBalance <> None ->
        isStakeEnabled parsedAmount lpBalance na = false).
Proof.
  unfold warning, isStakeEnabled, BigNumber.gt.
  destruct parsedAmount as [p|], lpBalance as [b|];
    try (split; [split; [discriminate | intros (? & ? & ? & ? & ?);
                                         discriminate]
                | intros H; now contradiction H]).
  destruct (Z.ltb_spec b p) as [Hlt | Hge]; split.
  - split; [intros _; exists p, b; auto | reflexivity].
  - intros _. destruct (holds na); reflexivity.
  - split; [discriminate|]. intros (p' & b' & [= <-] & [= <-] & Hlt). lia.
  - intros H. now contradiction H.
Qed.

Lemma warning_iff_insufficient_witness :
  warning (Some 12) (Some 10) = Some "Insufficient balance"
  /\ isStakeEnabled (Some 12) (Some 10) (Some false) = false.
Proof.
  split.
  - apply (proj1 (warning_iff_insufficient (Some 12) (Some 10) None)).
    exists 12, 10. split; [|split]; trivial. lia.
  - apply (proj2 (warning_iff_insufficient (Some 12) (Some 10) (Some false))).
    discriminate.
Defined.

(** X4.  With an empty amount field nothing is parsed, and then the
    approval state is unknown, both buttons are disabled and no warning
    is shown, whatever the wallet, allowance and balance. *)
Theorem empty_amount_disables_everything
  (U : Utils) (stakingToken : option Token)
  (address : option Address) (allowance lpBalance : option Z) :
  parsedAmount_of "" stakingToken = Ok None
  /\ needsApproval address allowance None = None
  /\ approveDisabled (needsApproval address allowance None) = true
  /\ stakeDisabled
       (isStakeEnabled None lpBalance (needsApproval address allowance None))
     = true
  /\ warning None lpBalance = None.
Proof.
  assert (Hna : needsApproval address allowance None = None)
    by (apply needsApproval_unknown; now right).
  rewrite Hna. repeat split.
Qed.

(** ** The clock *)

Lemma gt_of_Z a b : gt (of_Z a) (of_Z b) = (b <? a).
Proof.
  unfold gt, of_Z, Qle_bool, inject_Z. simpl. rewrite !Z.mul_1_r.
  now rewrite Z.ltb_antisym.
Qed.

Lemma toNumber_exact t : 0 <= t < 2 ^ 53 -> BigNumber.toNumber t = of_Z t.
Proof.
  intros [Hlo Hhi]. unfold BigNumber.toNumber, BigNumber.round53.
  rewrite Z.abs_eq by exact Hlo.
  destruct (Z.ltb_spec t (2 ^ 53)) as [_|]; [|lia].
  f_equal. destruct (Z.eq_dec t 0) as [-> | Hnz]; [reflexivity|].
  rewrite Z.sgn_pos by lia. lia.
Qed.

(** The clock in whole seconds, wrapped to 32 bits. *)
Lemma now_seconds_wrap dateNow :
  0 <= dateNow ->
  now_seconds dateNow
  = of_Z (let m := (dateNow / 1000) mod 2 ^ 32 in
          if m <? 2 ^ 31 then m else m - 2 ^ 32).
Proof.
  intros Hnow. unfold now_seconds, to_int32.
  assert (Hnonneg : Qle_bool 0 (Qmake dateNow 1000) = true).
  { unfold Qle_bool. simpl. apply Z.leb_le. lia. }
  rewrite Hnonneg. reflexivity.
Qed.

(** X5.  Until the 32-bit horizon (19 January 2038) the program counts as
    expired exactly when the whole seconds of the clock exceed a fetched
    non-zero [periodFinish]; at the very second of the finish it is still
    running. *)
Theorem rewardsExpired_before_horizon
  (dateNow : Z) (c : Contract) (t : Z) :
  periodFinish c = Ok t ->
  0 < t < 2 ^ 53 ->
  0 <= dateNow < 2 ^ 31 * 1000 ->
  rewardsExpired dateNow (expireDate (Some c)) = Some (t <? dateNow / 1000).
Proof.
  intros Hread Ht Hnow.
  rewrite (rewardsExpired_of_timestamp dateNow c t Hread).
  destruct (Z.eqb_spec t 0); [lia|].
  rewrite toNumber_exact by lia. rewrite now_seconds_wrap by lia.
  assert (Hsec : 0 <= dateNow / 1000 < 2 ^ 31).
  { split; [apply Z.div_pos; lia | apply Z.div_lt_upper_bound; lia]. }
  cbv zeta. rewrite Z.mod_small by lia.
  destruct (Z.ltb_spec (dateNow / 1000) (2 ^ 31)); [|lia].
  now rewrite gt_of_Z.
Qed.

Lemma rewardsExpired_before_horizon_witness :
  let c := {| contractAddress := "0x5D13"; periodFinish := Ok 1700000000;
              rewardRate := Ok 1 |} in
  rewardsExpired 1700000000999 (expireDate (Some c)) = Some false
  /\ rewardsExpired 1700000001000 (expireDate (Some c)) = Some true.
Proof.
  intro c. split.
  - apply (rewardsExpired_before_horizon 1700000000999 c 1700000000);
      [reflexivity | lia | lia].
  - apply (rewardsExpired_before_horizon 1700000001000 c 1700000000);
      [reflexivity | lia | lia].
Defined.

(** X6.  From the 32-bit horizon on, and until the seconds reach 2^32,
    [| 0] turns the clock negative: no program with a fetched positive
    [periodFinish] counts as expired, however long ago it finished. *)
Theorem rewardsExpired_after_horizon
  (dateNow : Z) (c : Contract) (t : Z) :
  periodFinish c = Ok t ->
  0 < t < 2 ^ 53 ->
  2 ^ 31 * 1000 <= dateNow < 2 ^ 32 * 1000 ->
  rewardsExpired dateNow (expireDate (Some c)) = Some false.
Proof.
  intros Hread Ht Hnow.
  rewrite (rewardsExpired_of_timestamp dateNow c t Hread).
  destruct (Z.eqb_spec t 0); [lia|].
  rewrite toNumber_exact by lia. rewrite now_seconds_wrap by lia.
  assert (Hsec : 2 ^ 31 <= dateNow / 1000 < 2 ^ 32).
  { split; [apply Z.div_le_lower_bound; lia
           | apply Z.div_lt_upper_bound; lia]. }
  cbv zeta. rewrite Z.mod_small by lia.
  destruct (Z.ltb_spec (dateNow / 1000) (2 ^ 31)); [lia|].
  rewrite gt_of_Z. do 2 f_equal. apply Z.ltb_ge. lia.
Qed.

Lemma rewardsExpired_after_horizon_witness :
  let c := {| contractAddress := "0x5D13"; periodFinish := Ok 1700000000;
              rewardRate := Ok 1 |} in
  rewardsExpired 2147483648000 (expireDate (Some c)) = Some false.
Proof.
  intro c.
  apply (rewardsExpired_after_horizon 2147483648000 c 1700000000);
    [reflexivity | lia | lia].
Defined.

(** ** Reward figures *)

(** X7.  While the program runs, a staker whose balance is within the
    total staked is shown a share between zero and the total rewards per
    day. *)
Theorem userRewardsPerDay_within_total
  (c : Contract) (r sb ts : Z) :
  rewardRate c = Ok r ->
  0 <= r -> 0 < sb <= ts ->
  exists share,
    userRewardsPerDay (Some c) (Some sb) (Some ts) (Some false)
    = VBigNumber share
    /\ totalRewardsPerDay (Some c) (Some false) = Some (r * 86400)
    /\ 0 <= share <= r * 86400.
Proof.
  intros Hr Hrate [Hsb Hts].
  exists (Z.quot (r * 86400 * sb) ts). split; [|split].
  - apply userRewardsPerDay_active; trivial; lia.
  - now apply totalRewardsPerDay_active.
  - rewrite Z.quot_div_nonneg by nia. split.
    + apply Z.div_pos; nia.
    + apply Z.div_le_upper_bound; nia.
Qed.

Lemma userRewardsPerDay_within_total_witness :
  let c := {| contractAddress := "0x5D13"; periodFinish := Ok 1900000000;
              rewardRate := Ok 7 |} in
  exists share,
    userRewardsPerDay (Some c) (Some 10) (Some 30) (Some false)
    = VBigNumber share
    /\ totalRewardsPerDay (Some c) (Some false) = Some (7 * 86400)
    /\ 0 <= share <= 7 * 86400.
Proof.
  intro c.
  apply (userRewardsPerDay_within_total c 7 10 30); [reflexivity | lia | lia].
Defined.

Lemma div_add_le a b t : 0 < t -> a / t + b / t <= (a + b) / t.
Proof.
  intros Ht. apply Z.div_le_lower_bound; [exact Ht|].
  pose proof (Z.mul_div_le a t Ht). pose proof (Z.mul_div_le b t Ht). lia.
Qed.

(** X8.  The shares shown to two stakers whose balances fit together in
    the total staked never add up to more than the total rewards per day:
    truncation only ever rounds a share down. *)
Theorem userRewardsPerDay_not_overdistributed
  (c : Contract) (r sb1 sb2 ts : Z) :
  rewardRate c = Ok r ->
  0 <= r -> 0 < sb1 -> 0 < sb2 -> sb1 + sb2 <= ts ->
  exists share1 share2,
    userRewardsPerDay (Some c) (Some sb1) (Some ts) (Some false)
    = VBigNumber share1
    /\ userRewardsPerDay (Some c) (Some sb2) (Some ts) (Some false)
       = VBigNumber share2
    /\ share1 + share2 <= r * 86400.
Proof.
  intros Hr Hrate Hsb1 Hsb2 Hts.
  exists (Z.quot (r * 86400 * sb1) ts), (Z.quot (r * 86400 * sb2) ts).
  split; [|split].
  - apply userRewardsPerDay_active; trivial; lia.
  - apply userRewardsPerDay_active; trivial; lia.
  - rewrite !Z.quot_div_nonneg by nia.
    eapply Z.le_trans; [apply div_add_le; lia|].
    apply Z.div_le_upper_bound; nia.
Qed.

Lemma userRewardsPerDay_not_overdistributed_witness :
  let c := {| contractAddress := "0x5D13"; periodFinish := Ok 1900000000;
              rewardRate := Ok 1 |} in
  exists share1 share2,
    userRewardsPerDay (Some c) (Some 1) (Some 3) (Some false)
    = VBigNumber share1
    /\ userRewardsPerDay (Some c) (Some 2) (Some 3) (Some false)
       = VBigNumber share2
    /\ share1 + share2 <= 1 * 86400.
Proof.
  intro c.
  apply (userRewardsPerDay_not_overdistributed c 1 1 2 3);
    [reflexivity | lia | lia | lia | lia].
Defined.

(** X9.  The "Your Rewards" row is shown exactly when a BigNumber share
    was computed, also when that share is zero; it is hidden for the
    number [0] of an expired program, for undefined and for the empty
    string. *)
Theorem showUserRewards_iff_share
  (stakingRewards : option Contract) (stakeBalance totalStaked : option Z)
  (expired : option bool) :
  let user := userRewardsPerDay stakingRewards stakeBalance totalStaked
                expired in
  (showUserRewards user = true <-> exists share, user = VBigNumber share)
  /\ (expired = Some true -> showUserRewards user = false).
Proof.
  cbv zeta. unfold showUserRewards, userRewardsPerDay.
  destruct stakingRewards as [c|], stakeBalance as [sb|],
    totalStaked as [ts|], expired as [[|]|]; cbn [try_or ret result_monad];
    try (split; [split; [discriminate | intros [? ?]; discriminate]
                | reflexivity]).
  - destruct (negb (BigNumber.gt sb 0)); cbn [try_or ret result_monad];
      (split; [split; [discriminate | intros [? ?]; discriminate]
              | reflexivity]).
  - split; [|discriminate].
    destruct (negb (BigNumber.gt sb 0)); cbn [try_or ret result_monad];
      [split; [discriminate | intros [? ?]; discriminate]|].
    destruct (rewardRate c) as [r|m]; cbn [try_or bind ret result_monad];
      [|split; [discriminate | intros [? ?]; discriminate]].
    unfold BigNumber.div. destruct (_ =? 0); cbn [try_or];
      [split; [discriminate | intros [? ?]; discriminate]|].
    split; [eauto | reflexivity].
Qed.

Lemma showUserRewards_iff_share_witness :
  let c := {| contractAddress := "0x5D13"; periodFinish := Ok 1600000000;
              rewardRate := Ok 7 |} in
  showUserRewards
    (userRewardsPerDay (Some c) (Some 10) (Some 30) (Some true)) = false
  /\ showUserRewards
       (userRewardsPerDay (Some c) (Some 1) (Some (10 ^ 30)) (Some false))
     = true.
Proof.
  intro c. split.
  - apply (proj2 (showUserRewards_iff_share (Some c) (Some 10) (Some 30)
                    (Some true))).
    reflexivity.
  - apply (proj1 (showUserRewards_iff_share (Some c) (Some 1)
                    (Some (10 ^ 30)) (Some false))).
    exists 0. reflexivity.
Defined.

(** X10.  Once the program has expired the total is a known zero and the
    "Total Rewards" row is hidden; while it runs the row is shown exactly
    for a positive reward rate. *)
Theorem showTotalRewards_spec (c : Contract) :
  showTotalRewards (totalRewardsPerDay (Some c) (Some true)) = false
  /\ (forall r, rewardRate c = Ok r ->
        showTotalRewards (totalRewardsPerDay (Some c) (Some false))
        = (0 <? r)).
Proof.
  split; [reflexivity|].
  intros r Hr. rewrite (totalRewardsPerDay_active c r Hr).
  unfold showTotalRewards, BigNumber.gt.
  destruct (Z.ltb_spec 0 (r * 86400)), (Z.ltb_spec 0 r); trivial; lia.
Qed.

Lemma showTotalRewards_spec_witness :
  let c := {| contractAddress := "0x5D13"; periodFinish := Ok 1900000000;
              rewardRate := Ok 7 |} in
  showTotalRewards (totalRewardsPerDay (Some c) (Some false)) = true.
Proof.
  intro c. exact (proj2 (showTotalRewards_spec c) 7 eq_refl).
Defined.

(** X11.  For an expired program the total rewards per day are a known
    zero, which passes the presence test of [apr]: with prices and pool
    available the figure is exactly zero, not absent. *)
Theorem apr_zero_when_expired
  (U : Utils) (bridge : HopBridge) (network : Network) (c : Contract)
  (totalStaked : Z) (rewardTokenUsdPrice tokenUsdPrice : number)
  (rewardTokenUsdPriceBn tokenUsdPriceBn : Z)
  (token : Token) (amm : Amm) (stakedTotal stakedTotal18d precision : Z) :
  truthy rewardTokenUsdPrice = true ->
  truthy tokenUsdPrice = true ->
  amountToBN (numberToString rewardTokenUsdPrice) 18
    = Ok rewardTokenUsdPriceBn ->
  amountToBN (numberToString tokenUsdPrice) 18 = Ok tokenUsdPriceBn ->
  getCanonicalToken bridge (slug network) = Ok token ->
  getAmm bridge (slug network) = Ok amm ->
  calculateTotalAmountForLpToken amm totalStaked = Ok stakedTotal ->
  shiftBNDecimals stakedTotal (TOTAL_AMOUNTS_DECIMALS - decimals token)
    = Ok stakedTotal18d ->
  amountToBN "1" 18 = Ok precision ->
  stakedTotal18d * tokenUsdPriceBn <> 0 ->
  apr (Some bridge) (Some network) (Some totalStaked)
      (totalRewardsPerDay (Some c) (Some true))
      (Some rewardTokenUsdPrice) (Some tokenUsdPrice)
  = Some 0.
Proof.
  intros Hr Ht HrBn HtBn Htoken Hamm Hval Hshift Hprec Hden.
  rewrite totalRewardsPerDay_expired.
  unfold apr. rewrite Hr, Ht. cbn [andb negb].
  cbn [bind ret result_monad].
  rewrite HrBn, HtBn, Htoken, Hamm, Hval.
  destruct (BigNumber.lte stakedTotal 0); [reflexivity|].
  rewrite Hshift, Hprec. unfold BigNumber.div, BigNumber.mul.
  apply Z.eqb_neq in Hden. rewrite Hden. reflexivity.
Qed.

Lemma apr_zero_when_expired_witness :
  let usdc := {| symbol := "USDC"; decimals := 6; tokenSigner := None;
                 tokenAllowance := fun _ => Ok 0 |} in
  let pool := {| calculateTotalAmountForLpToken :=
                   fun lp => Ok (lp / 10 ^ 12) |} in
  let bridge := {| getCanonicalToken := fun _ => Ok usdc;
                   getAmm := fun _ => Ok pool |} in
  let polygon := {| slug := "polygon"; networkId := "137" |} in
  let c := {| contractAddress := "0x5D13"; periodFinish := Ok 1600000000;
              rewardRate := Ok 1 |} in
  apr (U := whole_utils) (Some bridge) (Some polygon)
      (Some (4000 * 10 ^ 18)) (totalRewardsPerDay (Some c) (Some true))
      (Some (of_Z 2)) (Some (of_Z 1))
  = Some 0.
Proof.
  intros usdc pool bridge polygon c.
  apply (apr_zero_when_expired whole_utils bridge polygon c
           (4000 * 10 ^ 18) (of_Z 2) (of_Z 1)
           (2 * 10 ^ 18) (1 * 10 ^ 18) usdc pool (4000 * 10 ^ 6)
           (4000 * 10 ^ 18) (1 * 10 ^ 18)
           eq_refl eq_refl eq_refl eq_refl eq_refl eq_refl eq_refl
           eq_refl eq_refl).
  lia.
Defined.

(** ** The staked position *)

Lemma bn_pow_ten d :
  0 <= d < BigNumber.MAX_SAFE ->
  bn_pow 10 d = Ok (10 ^ d) /\ 10 ^ d <> 0.
Proof.
  intros [Hlo Hhi]. unfold bn_pow.
  rewrite from_number_of_Z by (unfold BigNumber.MAX_SAFE in *; lia).
  cbn [bind result_monad].
  destruct (Z.ltb_spec d 0); [lia|]. split; [reflexivity|].
  apply Z.pow_nonzero; lia.
Qed.

(** X12.  Without a positive stake the position is undefined: nothing is
    asked of the bridge or the pool and nothing can throw, even when
    rewards have been earned and are waiting to be claimed. *)
Theorem stakedPosition_without_stake
  (U : Utils) (bridge : option HopBridge) (network : option Network)
  (stakeBalance earned : option Z) (stakingToken : option Token)
  (rewardTokenUsdPrice tokenUsdPrice : option number) :
  showWithdraw stakeBalance = false ->
  stakedPosition bridge network stakeBalance earned stakingToken
    rewardTokenUsdPrice tokenUsdPrice = Ok None.
Proof.
  intros Hstake. unfold stakedPosition.
  destruct bridge, network, earned, rewardTokenUsdPrice, tokenUsdPrice,
    stakingToken, stakeBalance as [sb|]; try reflexivity.
  simpl in Hstake. rewrite Hstake, !andb_false_r. reflexivity.
Qed.

Lemma stakedPosition_without_stake_witness :
  let broken := {| getCanonicalToken := fun _ => Throw "no token";
                   getAmm := fun _ => Throw "no pool" |} in
  let lp := {| symbol := "LP"; decimals := 18; tokenSigner := None;
               tokenAllowance := fun _ => Ok 0 |} in
  stakedPosition (U := whole_utils) (Some broken)
    (Some {| slug := "polygon"; networkId := "137" |})
    (Some 0) (Some 55) (Some lp) (Some (of_Z 2)) (Some (of_Z 1))
  = Ok None.
Proof.
  intros broken lp.
  apply (stakedPosition_without_stake whole_utils). reflexivity.
Defined.

(** X13.  With a positive stake, truthy prices and every helper and
    external call answering, the position is the valuation of the stake
    at the staking-token price plus the earned rewards at the reward-token
    price, scaled down by ten to the staking token's decimals; for
    decimals a token can have the final division never divides by zero. *)
Theorem stakedPosition_value
  (U : Utils) (bridge : HopBridge) (network : Network)
  (stakeBalance earned : Z) (stakingToken : Token)
  (rewardTokenUsdPrice tokenUsdPrice : number)
  (rewardTokenUsdPriceBn tokenUsdPriceBn : Z)
  (token : Token) (amm : Amm) (userStakedTotal userStakedTotal18d : Z) :
  0 < stakeBalance ->
  truthy rewardTokenUsdPrice = true ->
  truthy tokenUsdPrice = true ->
  0 <= decimals stakingToken < BigNumber.MAX_SAFE ->
  amountToBN (numberToString rewardTokenUsdPrice) (decimals stakingToken)
    = Ok rewardTokenUsdPriceBn ->
  amountToBN (numberToString tokenUsdPrice) (decimals stakingToken)
    = Ok tokenUsdPriceBn ->
  getCanonicalToken bridge (slug network) = Ok token ->
  getAmm bridge (slug network) = Ok amm ->
  calculateTotalAmountForLpToken amm stakeBalance = Ok userStakedTotal ->
  shiftBNDecimals userStakedTotal (TOTAL_AMOUNTS_DECIMALS - decimals token)
    = Ok userStakedTotal18d ->
  stakedPosition (Some bridge) (Some network) (Some stakeBalance)
    (Some earned) (Some stakingToken)
    (Some rewardTokenUsdPrice) (Some tokenUsdPrice)
  = Ok (Some (Z.quot
                (userStakedTotal18d * tokenUsdPriceBn
                 + earned * rewardTokenUsdPriceBn)
                (10 ^ decimals stakingToken))).
Proof.
  intros Hstake Hr Ht Hdec HrBn HtBn Htoken Hamm Hval Hshift.
  unfold stakedPosition, BigNumber.gt.
  apply Z.ltb_lt in Hstake. rewrite Hr, Ht, Hstake. cbn [andb negb].
  cbn [bind ret result_monad].
  rewrite HrBn, HtBn, Htoken, Hamm, Hval, Hshift.
  destruct (bn_pow_ten _ Hdec) as [Hpow Hnz]. rewrite Hpow.
  unfold BigNumber.div. apply Z.eqb_neq in Hnz. rewrite Hnz. reflexivity.
Qed.

Lemma stakedPosition_value_witness :
  let usdc := {| symbol := "USDC"; decimals := 6; tokenSigner := None;
                 tokenAllowance := fun _ => Ok 0 |} in
  let lp := {| symbol := "LP"; decimals := 18; tokenSigner := None;
               tokenAllowance := fun _ => Ok 0 |} in
  let pool := {| calculateTotalAmountForLpToken :=
                   fun lp => Ok (lp / 10 ^ 12) |} in
  let bridge := {| getCanonicalToken := fun _ => Ok usdc;
                   getAmm := fun _ => Ok pool |} in
  let polygon := {| slug := "polygon"; networkId := "137" |} in
  stakedPosition (U := whole_utils) (Some bridge) (Some polygon)
    (Some (1000 * 10 ^ 18)) (Some (5 * 10 ^ 18)) (Some lp)
    (Some (of_Z 2)) (Some (of_Z 1))
  = Ok (Some (1010 * 10 ^ 18)).
Proof.
  intros usdc lp pool bridge polygon.
  apply (stakedPosition_value whole_utils bridge polygon
           (1000 * 10 ^ 18) (5 * 10 ^ 18) lp (of_Z 2) (of_Z 1)
           (2 * 10 ^ 18) (1 * 10 ^ 18) usdc pool
           (1000 * 10 ^ 6) (1000 * 10 ^ 18));
    try reflexivity; unfold BigNumber.MAX_SAFE; simpl; lia.
Defined.

(** ** Actions in every world *)

(** Unfold an action down to its requests. *)
Ltac unfold_action :=
  unfold stake, claim, withdraw, withdraw_onConfirm, try_catch,
    txConfirm_show, show, call, console_error, request, emit, setAmount,
    throw, initial;
  cbn [bind ret action_monad result_monad].

(** Decide every reply of the collaborators, one after the other. *)
Ltac case_replies :=
  repeat (match goal with
          | |- context [match ?x with _ => _ end] =>
              lazymatch x with
              | context [match _ with _ => _ end] => fail
              | _ => destruct x eqn:?
              end
          end;
          cbn [fst snd amount events negb] in *).

(** X14.  No error escapes [stake], [claim] or [withdraw]: whatever the
    collaborators answer or throw, each action returns normally. *)
Theorem actions_never_throw
  (U : Utils) (w : World) (r : Render) (s : State) :
  fst (stake w r s) = Ok tt
  /\ fst (claim w r s) = Ok tt
  /\ fst (withdraw w r s) = Ok tt.
Proof.
  split; [|split]; unfold_action; case_replies;
    repeat match goal with u : unit |- _ => destruct u end; reflexivity.
Qed.

(** Turn the recorded replies into facts about the world. *)
Ltac replies_as_facts :=
  repeat match goal with
         | H : negb _ = false |- _ => apply negb_false_iff in H
         | H : negb _ = true |- _ => apply negb_true_iff in H
         | H : with_hash None = Some _ |- _ => discriminate H
         | u : unit |- _ => destruct u
         end;
  subst.

(** X15.  [stake] sends at most one contract call, and only a
    [stake(parsedAmount)]: that call is sent only after the network check
    answered [true] and the user confirmed the prompt. *)
Theorem stake_sends_at_most_one_call
  (U : Utils) (w : World) (r : Render) (a : string) :
  let calls := contract_calls (events (snd (stake w r (initial a)))) in
  calls = []
  \/ (calls = [CallStake (parsedAmount r)]
      /\ exists net params,
           network r = Some net
           /\ checkConnectedNetworkId w (stringToNumber (networkId net))
              = Ok true
           /\ txConfirm w = Some (Confirm params)).
Proof.
  cbv zeta. unfold_action. case_replies; replies_as_facts;
    first [left; reflexivity | right; split; [reflexivity | eauto 10]].
Qed.

(** X16.  [stake] keeps the amount field and the tracker in step: when a
    transaction was registered the field has been cleared and a stake
    call was sent; when none was registered the field still holds what
    the user typed. *)
Theorem stake_clears_iff_registered
  (U : Utils) (w : World) (r : Render) (a : string) :
  let after := snd (stake w r (initial a)) in
  (existsb is_addTransaction (events after) = true ->
     amount after = ""
     /\ contract_calls (events after) = [CallStake (parsedAmount r)])
  /\ (existsb is_addTransaction (events after) = false ->
        amount after = a /\ existsb is_setAmount (events after) = false).
Proof.
  cbv zeta. unfold_action. case_replies; replies_as_facts;
    (split; [intros Hreg | intros Hreg]); cbn in Hreg |- *;
    try discriminate Hreg; split; reflexivity.
Qed.

Lemma stake_clears_iff_registered_witness :
  let w := {| checkConnectedNetworkId := fun _ => Ok true;
              getSignerOrProvider := fun _ => Ok "signer";
              txConfirm := Some (Confirm None);
              send := fun _ _ => Ok {| hash := "0x01" |};
              waitForTransaction := fun _ => Throw "timeout" |} in
  let r := {| network := Some {| slug := "polygon"; networkId := "137" |};
              stakingToken := None;
              stakingRewards :=
                Some {| contractAddress := "0x5D13"; periodFinish := Ok 0;
                        rewardRate := Ok 1 |};
              stakeBalance := None;
              parsedAmount := Some 5 |} in
  amount (snd (stake (U := whole_utils) w r (initial "5"))) = ""
  /\ contract_calls (events (snd (stake (U := whole_utils) w r (initial "5"))))
     = [CallStake (Some 5)].
Proof.
  intros w r.
  apply (proj1 (stake_clears_iff_registered whole_utils w r "5")).
  reflexivity.
Defined.

(** The run of a confirmed stake that the contract accepts. *)
Lemma stake_success_run
  (U : Utils) (w : World) (r : Render) (s : State)
  (sr : Contract) (net : Network) (params : option number)
  (signer : Signer) (tx : TransactionResponse) :
  stakingRewards r = Some sr ->
  network r = Some net ->
  checkConnectedNetworkId w (stringToNumber (networkId net)) = Ok true ->
  txConfirm w = Some (Confirm params) ->
  getSignerOrProvider w (slug net) = Ok signer ->
  send w signer (CallStake (parsedAmount r)) = Ok tx ->
  hash tx <> "" ->
  stake w r s
  = (Ok tt,
     {| amount := "";
        events :=
          events s
          ++ [EvCheckConnectedNetworkId (stringToNumber (networkId net));
              EvShow "stake";
              EvGetSignerOrProvider (slug net);
              EvContractCall (CallStake (parsedAmount r));
              EvSetAmount "";
              EvAddTransaction (hash tx) (slug net);
              EvWaitForTransaction (hash tx) (slug net)]
          ++ match waitForTransaction w tx with
             | Ok _ => []
             | Throw m => [EvConsoleError m]
             end |}).
Proof.
  intros Hsr Hnet Hcheck Hconfirm Hsigner Hsend Hhash.
  apply String.eqb_neq in Hhash.
  unfold_action. rewrite Hsr, Hnet, Hcheck, Hconfirm.
  cbn [negb amount events]. rewrite Hsigner. cbn [amount events].
  rewrite Hsend. unfold with_hash. rewrite Hhash. cbn [amount events].
  destruct (waitForTransaction w tx) as [[]|m]; cbn [amount events];
    repeat rewrite <- app_assoc; cbn [app]; rewrite ?app_nil_r; reflexivity.
Qed.

(** X17.  A confirmed stake that the contract accepts with a hash asks,
    in this order: network check, prompt, signer, [stake(parsedAmount)],
    then clears the amount field, registers the transaction and waits for
    it.  A wait that fails is logged after the transaction has been
    registered and the field cleared; neither is undone. *)
Theorem stake_success
  (U : Utils) (w : World) (r : Render) (a : string)
  (sr : Contract) (net : Network) (params : option number)
  (signer : Signer) (tx : TransactionResponse) :
  stakingRewards r = Some sr ->
  network r = Some net ->
  checkConnectedNetworkId w (stringToNumber (networkId net)) = Ok true ->
  txConfirm w = Some (Confirm params) ->
  getSignerOrProvider w (slug net) = Ok signer ->
  send w signer (CallStake (parsedAmount r)) = Ok tx ->
  hash tx <> "" ->
  let after := snd (stake w r (initial a)) in
  let asked :=
    [EvCheckConnectedNetworkId (stringToNumber (networkId net));
     EvShow "stake";
     EvGetSignerOrProvider (slug net);
     EvContractCall (CallStake (parsedAmount r));
     EvSetAmount "";
     EvAddTransaction (hash tx) (slug net);
     EvWaitForTransaction (hash tx) (slug net)] in
  amount after = ""
  /\ (forall m, waitForTransaction w tx = Throw m ->
        events after = (asked ++ [EvConsoleError m])%list)
  /\ (waitForTransaction w tx = Ok tt -> events after = asked).
Proof.
  intros Hsr Hnet Hcheck Hconfirm Hsigner Hsend Hhash after asked.
  subst after.
  rewrite (stake_success_run U w r (initial a) sr net params signer tx)
    by assumption.
  cbn [snd amount events initial app]. split; [reflexivity|]. split.
  - intros m ->. reflexivity.
  - intros ->. reflexivity.
Qed.

Lemma stake_success_witness :
  let w := {| checkConnectedNetworkId := fun _ => Ok true;
              getSignerOrProvider := fun _ => Ok "signer";
              txConfirm := Some (Confirm None);
              send := fun _ _ => Ok {| hash := "0x01" |};
              waitForTransaction := fun _ => Throw "timeout" |} in
  let r := {| network := Some {| slug := "polygon"; networkId := "137" |};
              stakingToken := None;
              stakingRewards :=
                Some {| contractAddress := "0x5D13"; periodFinish := Ok 0;
                        rewardRate := Ok 1 |};
              stakeBalance := None;
              parsedAmount := Some 5 |} in
  amount (snd (stake (U := whole_utils) w r (initial "5"))) = "".
Proof.
  intros w r.
  apply (stake_success whole_utils w r "5"
           {| contractAddress := "0x5D13"; periodFinish := Ok 0;
              rewardRate := Ok 1 |}
           {| slug := "polygon"; networkId := "137" |}
           None "signer" {| hash := "0x01" |});
    try reflexivity. discriminate.
Defined.

(** X18.  After a stake that was registered the next render parses an
    empty amount field: the Stake and Approve buttons are both disabled
    until a new amount is typed, so a second click cannot stake again. *)
Theorem stake_then_disabled
  (U : Utils) (w : World) (r : Render) (s : State)
  (sr : Contract) (net : Network) (params : option number)
  (signer : Signer) (tx : TransactionResponse)
  (address : option Address) (allowance lpBalance : option Z) :
  stakingRewards r = Some sr ->
  network r = Some net ->
  checkConnectedNetworkId w (stringToNumber (networkId net)) = Ok true ->
  txConfirm w = Some (Confirm params) ->
  getSignerOrProvider w (slug net) = Ok signer ->
  send w signer (CallStake (parsedAmount r)) = Ok tx ->
  hash tx <> "" ->
  exists r',
    rerender r (snd (stake w r s)) = Ok r'
    /\ parsedAmount r' = None
    /\ stakeDisabled
         (isStakeEnabled (parsedAmount r') lpBalance
            (needsApproval address allowance (parsedAmount r'))) = true
    /\ approveDisabled (needsApproval address allowance (parsedAmount r'))
       = true.
Proof.
  intros Hsr Hnet Hcheck Hconfirm Hsigner Hsend Hhash.
  rewrite (stake_success_run U w r s sr net params signer tx) by assumption.
  unfold rerender. cbn [snd amount]. unfold parsedAmount_of.
  cbn [String.eqb bind ret result_monad].
  eexists. split; [reflexivity|]. cbn [parsedAmount].
  assert (Hna : needsApproval address allowance None = None)
    by (apply needsApproval_unknown; now right).
  rewrite Hna. repeat split.
Qed.

Lemma stake_then_disabled_witness :
  let w := {| checkConnectedNetworkId := fun _ => Ok true;
              getSignerOrProvider := fun _ => Ok "signer";
              txConfirm := Some (Confirm None);
              send := fun _ _ => Ok {| hash := "0x01" |};
              waitForTransaction := fun _ => Ok tt |} in
  let r := {| network := Some {| slug := "polygon"; networkId := "137" |};
              stakingToken := None;
              stakingRewards :=
                Some {| contractAddress := "0x5D13"; periodFinish := Ok 0;
                        rewardRate := Ok 1 |};
              stakeBalance := None;
              parsedAmount := Some 5 |} in
  exists r',
    rerender (U := whole_utils) r
      (snd (stake (U := whole_utils) w r (initial "5"))) = Ok r'
    /\ parsedAmount r' = None
    /\ stakeDisabled
         (isStakeEnabled (parsedAmount r') (Some 100)
            (needsApproval (Some "0xabc") (Some 100) (parsedAmount r')))
       = true
    /\ approveDisabled
         (needsApproval (Some "0xabc") (Some 100) (parsedAmount r')) = true.
Proof.
  intros w r.
  apply (stake_then_disabled whole_utils w r (initial "5")
           {| contractAddress := "0x5D13"; periodFinish := Ok 0;
              rewardRate := Ok 1 |}
           {| slug := "polygon"; networkId := "137" |}
           None "signer" {| hash := "0x01" |}
           (Some "0xabc") (Some 100) (Some 100));
    try reflexivity. discriminate.
Defined.

(** X19.  Without a contract handle or a network, [stake] and [claim] ask
    nothing of anybody: the error they raise is logged and swallowed. *)
Theorem stake_claim_missing_parameter
  (U : Utils) (w : World) (r : Render) (s : State) :
  (stakingRewards r = None ->
     let logged :=
       {| amount := amount s;
          events := events s
                    ++ [EvConsoleError "StakingRewards not instantiated"] |} in
     stake w r s = (Ok tt, logged) /\ claim w r s = (Ok tt, logged))
  /\ (stakingRewards r <> None -> network r = None ->
        let logged :=
          {| amount := amount s;
             events := events s
                       ++ [EvConsoleError "Network must be defined"] |} in
        stake w r s = (Ok tt, logged) /\ claim w r s = (Ok tt, logged)).
Proof.
  split.
  - intros Hsr. unfold_action. rewrite Hsr. split; reflexivity.
  - intros Hsr Hnet. unfold_action. rewrite Hnet.
    destruct (stakingRewards r); [split; reflexivity | now contradiction Hsr].
Qed.

Lemma stake_claim_missing_parameter_witness :
  let w := {| checkConnectedNetworkId := fun _ => Ok true;
              getSignerOrProvider := fun _ => Ok "signer";
              txConfirm := Some (Confirm None);
              send := fun _ _ => Ok {| hash := "0x01" |};
              waitForTransaction := fun _ => Ok tt |} in
  let r := {| network := Some {| slug := "polygon"; networkId := "137" |};
              stakingToken := None;
              stakingRewards := None;
              stakeBalance := None;
              parsedAmount := Some 5 |} in
  stake (U := whole_utils) w r (initial "5")
  = (Ok tt, {| amount := "5";
               events := [EvConsoleError "StakingRewards not instantiated"] |}).
Proof.
  intros w r.
  exact (proj1 (proj1 (stake_claim_missing_parameter whole_utils w r
                         (initial "5")) eq_refl)).
Defined.

(** X20.  [withdraw] needs the contract handle, the network and the stake
    balance: with one of them missing it logs the error and asks nothing.
    With all three, a network check answering [false] ends it after that
    one request. *)
Theorem withdraw_guards
  (U : Utils) (w : World) (r : Render) (s : State) :
  (stakingRewards r = None \/ network r = None \/ stakeBalance r = None ->
     withdraw w r s
     = (Ok tt, {| amount := amount s;
                  events := events s
                            ++ [EvConsoleError "Missing withdraw param"] |}))
  /\ (forall sr net sb,
        stakingRewards r = Some sr -> network r = Some net ->
        stakeBalance r = Some sb ->
        checkConnectedNetworkId w (stringToNumber (networkId net))
        = Ok false ->
        withdraw w r s
        = (Ok tt, {| amount := amount s;
                     events := events s
                               ++ [EvCheckConnectedNetworkId
                                     (stringToNumber (networkId net))] |})).
Proof.
  split.
  - intros Hmissing. unfold_action.
    destruct (stakingRewards r), (network r), (stakeBalance r);
      try reflexivity.
    destruct Hmissing as [H | [H | H]]; discriminate H.
  - intros sr net sb Hsr Hnet Hsb Hcheck. unfold_action.
    rewrite Hsr, Hnet, Hsb, Hcheck. reflexivity.
Qed.

Lemma withdraw_guards_witness :
  let w := {| checkConnectedNetworkId := fun _ => Ok false;
              getSignerOrProvider := fun _ => Ok "signer";
              txConfirm := Some (Confirm (Some (of_Z 100)));
              send := fun _ _ => Ok {| hash := "0x01" |};
              waitForTransaction := fun _ => Ok tt |} in
  let sr := {| contractAddress := "0x5D13"; periodFinish := Ok 0;
               rewardRate := Ok 1 |} in
  let net := {| slug := "polygon"; networkId := "137" |} in
  withdraw (U := whole_utils) w
    {| network := Some net; stakingToken := None; stakingRewards := Some sr;
       stakeBalance := None; parsedAmount := None |} (initial "")
  = (Ok tt, {| amount := "";
               events := [EvConsoleError "Missing withdraw param"] |})
  /\ withdraw (U := whole_utils) w
       {| network := Some net; stakingToken := None;
          stakingRewards := Some sr; stakeBalance := Some 9;
          parsedAmount := None |} (initial "")
     = (Ok tt, {| amount := "";
                  events := [EvCheckConnectedNetworkId (of_Z 137)] |}).
Proof.
  intros w sr net. split.
  - apply (proj1 (withdraw_guards whole_utils w _ (initial ""))).
    right. right. reflexivity.
  - apply (proj2 (withdraw_guards whole_utils w _ (initial "")) sr net 9);
      reflexivity.
Defined.

(** X21.  [claim] sends [getReward] straight away once the network check
    passes and a signer is found.  In every world it shows no prompt,
    registers nothing with the tracker, waits for nothing, leaves the
    amount field alone, and sends no call other than one [getReward]. *)
Theorem claim_spec
  (U : Utils) (w : World) (r : Render) (a : string) :
  let after := snd (claim w r (initial a)) in
  (amount after = a
   /\ existsb is_show (events after) = false
   /\ existsb is_addTransaction (events after) = false
   /\ existsb is_waitForTransaction (events after) = false
   /\ (contract_calls (events after) = []
       \/ contract_calls (events after) = [CallGetReward]))
  /\ (forall sr net signer,
        stakingRewards r = Some sr -> network r = Some net ->
        checkConnectedNetworkId w (stringToNumber (networkId net)) = Ok true ->
        getSignerOrProvider w (slug net) = Ok signer ->
        contract_calls (events after) = [CallGetReward])
  /\ (forall sr net,
        stakingRewards r = Some sr -> network r = Some net ->
        checkConnectedNetworkId w (stringToNumber (networkId net))
        = Ok false ->
        events after
        = [EvCheckConnectedNetworkId (stringToNumber (networkId net))]).
Proof.
  cbv zeta. split; [|split].
  - unfold_action. case_replies; replies_as_facts;
      repeat split; auto.
  - intros sr net signer Hsr Hnet Hcheck Hsigner. unfold_action.
    rewrite Hsr, Hnet, Hcheck. cbn [negb amount events]. rewrite Hsigner.
    cbn [amount events]. destruct (send w signer CallGetReward); reflexivity.
  - intros sr net Hsr Hnet Hcheck. unfold_action.
    rewrite Hsr, Hnet, Hcheck. reflexivity.
Qed.

Lemma claim_spec_witness :
  let w := {| checkConnectedNetworkId := fun _ => Ok true;
              getSignerOrProvider := fun _ => Ok "signer";
              txConfirm := Some Cancel;
              send := fun _ _ => Throw "reverted";
              waitForTransaction := fun _ => Ok tt |} in
  let sr := {| contractAddress := "0x5D13"; periodFinish := Ok 0;
               rewardRate := Ok 1 |} in
  let net := {| slug := "polygon"; networkId := "137" |} in
  let r := {| network := Some net; stakingToken := None;
              stakingRewards := Some sr; stakeBalance := None;
              parsedAmount := None |} in
  contract_calls (events (snd (claim (U := whole_utils) w r (initial ""))))
  = [CallGetReward].
Proof.
  intros w sr net r.
  apply (proj1 (proj2 (claim_spec whole_utils w r "")) sr net "signer");
    reflexivity.
Defined.

(** X22.  A withdrawal that the user cancels, or confirms without a
    percentage or with a percentage of zero (or [NaN]), ends quietly after
    the network check, the signer lookup and the prompt: no contract
    call, nothing registered, no error logged. *)
Theorem withdraw_without_percentage
  (U : Utils) (w : World) (r : Render) (s : State)
  (sr : Contract) (net : Network) (sb : Z) (signer : Signer)
  (answer : Answer) :
  stakingRewards r = Some sr ->
  network r = Some net ->
  stakeBalance r = Some sb ->
  checkConnectedNetworkId w (stringToNumber (networkId net)) = Ok true ->
  getSignerOrProvider w (slug net) = Ok signer ->
  txConfirm w = Some answer ->
  answer = Cancel \/ answer = Confirm None
  \/ (exists n, answer = Confirm (Some n) /\ truthy n = false) ->
  withdraw w r s
  = (Ok tt,
     {| amount := amount s;
        events :=
          events s
          ++ [EvCheckConnectedNetworkId (stringToNumber (networkId net));
              EvGetSignerOrProvider (slug net);
              EvShow "withdrawStake"] |}).
Proof.
  intros Hsr Hnet Hsb Hcheck Hsigner Hconfirm Hanswer.
  unfold_action. rewrite Hsr, Hnet, Hsb, Hcheck.
  cbn [negb amount events]. rewrite Hsigner, Hconfirm.
  cbn [amount events].
  destruct Hanswer as [-> | [-> | (n & -> & Hfalsy)]];
    try rewrite Hfalsy; cbn [negb with_hash amount events];
    repeat rewrite <- app_assoc; reflexivity.
Qed.

Lemma withdraw_without_percentage_witness :
  let w := {| checkConnectedNetworkId := fun _ => Ok true;
              getSignerOrProvider := fun _ => Ok "signer";
              txConfirm := Some (Confirm (Some (of_Z 0)));
              send := fun _ _ => Ok {| hash := "0x01" |};
              waitForTransaction := fun _ => Ok tt |} in
  let sr := {| contractAddress := "0x5D13"; periodFinish := Ok 0;
               rewardRate := Ok 1 |} in
  let net := {| slug := "polygon"; networkId := "137" |} in
  let r := {| network := Some net; stakingToken := None;
              stakingRewards := Some sr; stakeBalance := Some 9;
              parsedAmount := None |} in
  withdraw (U := whole_utils) w r (initial "")
  = (Ok tt, {| amount := "";
               events := [EvCheckConnectedNetworkId (of_Z 137);
                          EvGetSignerOrProvider "polygon";
                          EvShow "withdrawStake"] |}).
Proof.
  intros w sr net r.
  apply (withdraw_without_percentage whole_utils w r (initial "") sr net 9
           "signer" (Confirm (Some (of_Z 0)))); try reflexivity.
  right. right. exists (of_Z 0). split; reflexivity.
Defined.

Lemma fraction_is_not_100 q :
  Qeq_bool q (inject_Z (Qfloor q)) = false ->
  strict_eq (Finite q) (of_Z 100) = false.
Proof.
  intros Hfrac. unfold strict_eq, of_Z.
  destruct (Qeq_bool q (inject_Z 100)) eqn:H100; [|reflexivity].
  apply Qeq_bool_iff in H100.
  assert (Hfloor : Qfloor q = 100).
  { rewrite (Qfloor_comp _ _ H100). apply Qfloor_Z. }
  rewrite Hfloor in Hfrac.
  apply Qeq_bool_iff in H100. congruence.
Qed.

(** X23.  A withdrawal confirmed with a percentage that is not a whole
    number sends nothing: making a BigNumber of the fraction throws, the
    error is logged, and no contract call leaves the widget. *)
Theorem withdraw_fractional_percentage
  (U : Utils) (w : World) (r : Render) (s : State)
  (sr : Contract) (net : Network) (sb : Z) (signer : Signer) (q : Q) :
  stakingRewards r = Some sr ->
  network r = Some net ->
  stakeBalance r = Some sb ->
  checkConnectedNetworkId w (stringToNumber (networkId net)) = Ok true ->
  getSignerOrProvider w (slug net) = Ok signer ->
  txConfirm w = Some (Confirm (Some (Finite q))) ->
  Qeq_bool q (inject_Z (Qfloor q)) = false ->
  withdraw w r s
  = (Ok tt,
     {| amount := amount s;
        events :=
          events s
          ++ [EvCheckConnectedNetworkId (stringToNumber (networkId net));
              EvGetSignerOrProvider (slug net);
              EvShow "withdrawStake";
              EvConsoleError "underflow"] |}).
Proof.
  intros Hsr Hnet Hsb Hcheck Hsigner Hconfirm Hfrac.
  assert (Htruthy : truthy (Finite q) = true).
  { unfold truthy. destruct (Qeq_bool q 0) eqn:H0; [|reflexivity].
    apply Qeq_bool_iff in H0.
    assert (Hfloor : Qfloor q = 0)
      by (rewrite (Qfloor_comp _ _ H0); reflexivity).
    rewrite Hfloor in Hfrac. apply Qeq_bool_iff in H0.
    change (inject_Z 0) with 0%Q in Hfrac. congruence. }
  unfold_action. rewrite Hsr, Hnet, Hsb, Hcheck.
  cbn [negb amount events]. rewrite Hsigner, Hconfirm.
  cbn [amount events]. rewrite Htruthy, (fraction_is_not_100 q Hfrac).
  unfold BigNumber.from_number. rewrite Hfrac.
  cbn [negb amount events]. repeat rewrite <- app_assoc. reflexivity.
Qed.

Lemma withdraw_fractional_percentage_witness :
  let w := {| checkConnectedNetworkId := fun _ => Ok true;
              getSignerOrProvider := fun _ => Ok "signer";
              txConfirm := Some (Confirm (Some (Finite (Qmake 25 2))));
              send := fun _ _ => Ok {| hash := "0x01" |};
              waitForTransaction := fun _ => Ok tt |} in
  let sr := {| contractAddress := "0x5D13"; periodFinish := Ok 0;
               rewardRate := Ok 1 |} in
  let net := {| slug := "polygon"; networkId := "137" |} in
  let r := {| network := Some net; stakingToken := None;
              stakingRewards := Some sr; stakeBalance := Some 9;
              parsedAmount := None |} in
  contract_calls (events (snd (withdraw (U := whole_utils) w r (initial ""))))
  = [].
Proof.
  intros w sr net r.
  rewrite (withdraw_fractional_percentage whole_utils w r (initial "") sr net
             9 "signer" (Qmake 25 2)); reflexivity.
Defined.

(** X24.  In every world [withdraw] leaves the amount field alone, sends
    at most one contract call, an [exit] or a [withdraw], and registers a
    transaction only after having sent one. *)
Theorem withdraw_in_every_world
  (U : Utils) (w : World) (r : Render) (a : string) :
  let after := snd (withdraw w r (initial a)) in
  let calls := contract_calls (events after) in
  amount after = a
  /\ existsb is_setAmount (events after) = false
  /\ (calls = [] \/ calls = [CallExit]
      \/ exists withdrawAmount, calls = [CallWithdraw withdrawAmount])
  /\ (existsb is_addTransaction (events after) = true -> calls <> []).
Proof.
  cbv zeta. unfold_action. case_replies; replies_as_facts;
    (split; [reflexivity|]); (split; [reflexivity|]);
    (split; [cbn; eauto | cbn; intros Hreg; discriminate]).
Qed.

Lemma withdraw_in_every_world_witness :
  let w := {| checkConnectedNetworkId := fun _ => Ok true;
              getSignerOrProvider := fun _ => Ok "signer";
              txConfirm := Some (Confirm (Some (of_Z 100)));
              send := fun _ _ => Ok {| hash := "0x01" |};
              waitForTransaction := fun _ => Ok tt |} in
  let sr := {| contractAddress := "0x5D13"; periodFinish := Ok 0;
               rewardRate := Ok 1 |} in
  let net := {| slug := "polygon"; networkId := "137" |} in
  let r := {| network := Some net; stakingToken := None;
              stakingRewards := Some sr; stakeBalance := Some 9;
              parsedAmount := None |} in
  contract_calls (events (snd (withdraw (U := whole_utils) w r (initial "7"))))
  <> [].
Proof.
  intros w sr net r.
  apply (proj2 (proj2 (proj2 (withdraw_in_every_world whole_utils w r "7")))).
  reflexivity.
Defined.

(** X25.  A partial withdrawal of a whole percentage from 1 to 99 asks
    the contract for an amount between zero and the stake balance, and
    for strictly less than a positive balance: it never asks for more
    than is staked. *)
Theorem withdraw_partial_within_balance
  (U : Utils) (w : World) (r : Render) (s : State)
  (sr : Contract) (net : Network) (sb : Z) (signer : Signer) (p : Z) :
  stakingRewards r = Some sr ->
  network r = Some net ->
  stakeBalance r = Some sb ->
  checkConnectedNetworkId w (stringToNumber (networkId net)) = Ok true ->
  getSignerOrProvider w (slug net) = Ok signer ->
  txConfirm w = Some (Confirm (Some (of_Z p))) ->
  0 <= sb -> 1 <= p <= 99 ->
  exists withdrawAmount,
    contract_calls (events (snd (withdraw w r s)))
    = (contract_calls (events s) ++ [CallWithdraw withdrawAmount])%list
    /\ 0 <= withdrawAmount <= sb
    /\ (0 < sb -> withdrawAmount < sb).
Proof.
  intros Hsr Hnet Hsb Hcheck Hsigner Hconfirm Hbal Hp.
  exists (Z.quot (sb * p) 100). split; [|split].
  - apply (withdraw_calls U w r s sr net sb signer (Some (of_Z p)));
      trivial.
    unfold withdraw_onConfirm.
    rewrite truthy_of_Z, strict_eq_of_Z, from_number_of_Z
      by (unfold BigNumber.MAX_SAFE; lia).
    destruct (Z.eqb_spec p 0); [lia|]. destruct (Z.eqb_spec p 100); [lia|].
    reflexivity.
  - rewrite Z.quot_div_nonneg by nia. split.
    + apply Z.div_pos; nia.
    + apply Z.div_le_upper_bound; nia.
  - intros Hpos. rewrite Z.quot_div_nonneg by nia.
    apply Z.div_lt_upper_bound; nia.
Qed.

Lemma withdraw_partial_within_balance_witness :
  let w := {| checkConnectedNetworkId := fun _ => Ok true;
              getSignerOrProvider := fun _ => Ok "signer";
              txConfirm := Some (Confirm (Some (of_Z 99)));
              send := fun _ _ => Throw "reverted";
              waitForTransaction := fun _ => Ok tt |} in
  let sr := {| contractAddress := "0x5D13"; periodFinish := Ok 0;
               rewardRate := Ok 1 |} in
  let net := {| slug := "polygon"; networkId := "137" |} in
  let r := {| network := Some net; stakingToken := None;
              stakingRewards := Some sr; stakeBalance := Some 1;
              parsedAmount := None |} in
  exists withdrawAmount,
    contract_calls (events (snd (withdraw (U := whole_utils) w r (initial ""))))
    = [CallWithdraw withdrawAmount]
    /\ 0 <= withdrawAmount <= 1
    /\ (0 < 1 -> withdrawAmount < 1).
Proof.
  intros w sr net r.
  apply (withdraw_partial_within_balance whole_utils w r (initial "") sr net
           1 "signer" 99); try reflexivity; lia.
Defined.

(** ** Approval *)

(** X26.  [approveToken] has no try of its own.  A missing contract
    handle, network or token is thrown to the caller before anything is
    asked; and what the network check, [approve] or the wait throws
    reaches the caller as well. *)
Theorem approveToken_errors_escape
  (U : Utils) (w : World)
  (approve : Z -> Token -> string -> result (option ApprovalTx))
  (r : Render) :
  (stakingRewards r = None \/ network r = None \/ stakingToken r = None ->
     approveToken w approve r = (Throw "Undefined approval parameter", []))
  /\ (forall sr net tok amt m,
        stakingRewards r = Some sr -> network r = Some net ->
        stakingToken r = Some tok -> parsedAmount r = Some amt ->
        checkConnectedNetworkId w (stringToNumber (networkId net)) = Ok true ->
        approve amt tok (contractAddress sr) = Throw m ->
        fst (approveToken w approve r) = Throw m)
  /\ (forall sr net tok amt tx m,
        stakingRewards r = Some sr -> network r = Some net ->
        stakingToken r = Some tok -> parsedAmount r = Some amt ->
        checkConnectedNetworkId w (stringToNumber (networkId net)) = Ok true ->
        approve amt tok (contractAddress sr) = Ok (Some tx) ->
        wait tx = Throw m ->
        fst (approveToken w approve r) = Throw m).
Proof.
  unfold approveToken. split; [|split].
  - intros Hmissing.
    destruct (stakingRewards r), (network r), (stakingToken r);
      try reflexivity.
    destruct Hmissing as [H | [H | H]]; discriminate H.
  - intros sr net tok amt m -> -> -> -> Hcheck Happrove.
    cbv zeta. now rewrite Hcheck, Happrove.
  - intros sr net tok amt tx m -> -> -> -> Hcheck Happrove Hwait.
    cbv zeta. now rewrite Hcheck, Happrove.
Qed.

Lemma approveToken_errors_escape_witness :
  let w := {| checkConnectedNetworkId := fun _ => Ok true;
              getSignerOrProvider := fun _ => Ok "signer";
              txConfirm := None;
              send := fun _ _ => Ok {| hash := "0x01" |};
              waitForTransaction := fun _ => Ok tt |} in
  let r := {| network := None; stakingToken := None; stakingRewards := None;
              stakeBalance := None; parsedAmount := Some 5 |} in
  approveToken (U := whole_utils) w (fun _ _ _ => Ok None) r
  = (Throw "Undefined approval parameter", []).
Proof.
  intros w r.
  apply (proj1 (approveToken_errors_escape whole_utils w
                  (fun _ _ _ => Ok None) r)).
  left. reflexivity.
Defined.

(** X27.  [approveToken] asks for an approval only on the right network
    and with an amount entered, and then for exactly the parsed amount
    with the staking-rewards contract as the spender; on a wrong network
    or with an empty amount field it returns after the network check. *)
Theorem approveToken_spec
  (U : Utils) (w : World)
  (approve : Z -> Token -> string -> result (option ApprovalTx))
  (r : Render) (sr : Contract) (net : Network) (tok : Token)
  (connected : bool) :
  stakingRewards r = Some sr ->
  network r = Some net ->
  stakingToken r = Some tok ->
  checkConnectedNetworkId w (stringToNumber (networkId net)) = Ok connected ->
  let check := ApCheckConnectedNetworkId (stringToNumber (networkId net)) in
  (connected = false \/ parsedAmount r = None ->
     approveToken w approve r = (Ok tt, [check]))
  /\ (forall amt,
        connected = true -> parsedAmount r = Some amt ->
        exists rest,
          snd (approveToken w approve r)
          = check :: ApApprove amt (symbol tok) (contractAddress sr) :: rest
          /\ (rest = [] \/ rest = [ApWait])).
Proof.
  intros Hsr Hnet Htok Hcheck check. unfold approveToken.
  rewrite Hsr, Hnet, Htok. cbv zeta. rewrite Hcheck. split.
  - intros [-> | Hnone]; [reflexivity|].
    rewrite Hnone. destruct connected; reflexivity.
  - intros amt -> ->.
    destruct (approve amt tok (contractAddress sr)) as [[tx|]|m];
      eexists; (split; [reflexivity | auto]).
Qed.

Lemma approveToken_spec_witness :
  let w := {| checkConnectedNetworkId := fun _ => Ok true;
              getSignerOrProvider := fun _ => Ok "signer";
              txConfirm := None;
              send := fun _ _ => Ok {| hash := "0x01" |};
              waitForTransaction := fun _ => Ok tt |} in
  let sr := {| contractAddress := "0x5D13"; periodFinish := Ok 0;
               rewardRate := Ok 1 |} in
  let net := {| slug := "polygon"; networkId := "137" |} in
  let lp := {| symbol := "LP"; decimals := 18; tokenSigner := None;
               tokenAllowance := fun _ => Ok 0 |} in
  let r := {| network := Some net; stakingToken := Some lp;
              stakingRewards := Some sr; stakeBalance := None;
              parsedAmount := Some 5 |} in
  exists rest,
    snd (approveToken (U := whole_utils) w
           (fun _ _ _ => Ok (Some {| wait := Ok tt |})) r)
    = ApCheckConnectedNetworkId (of_Z 137) :: ApApprove 5 "LP" "0x5D13" :: rest
    /\ (rest = [] \/ rest = [ApWait]).
Proof.
  intros w sr net lp r.
  apply (proj2 (approveToken_spec whole_utils w
                  (fun _ _ _ => Ok (Some {| wait := Ok tt |})) r sr net lp
                  true eq_refl eq_refl eq_refl eq_refl) 5);
    reflexivity.
Defined.
